(** * GTIN_Validation_v2.py: the batch-validation pipeline

    A shallow embedding of the core of [GTIN_Validation_v2.py]: the chunker
    ([chunk_list]), the retrying request client ([post_with_retry]), the
    normalisation of a response onto [COLUMNS_OF_INTEREST], the per-file
    batch loop and the run finalisation under [if uploaded_files:].

    Python integers are [Z]; Python lists are [list]; a Python [dict] is an
    association list in insertion order; exceptions are an explicit error
    type; the remote service, the sleeps and the Streamlit messages are
    threaded through a small state/writer/error monad. *)

From Stdlib Require Import Ascii String.
From Stdlib Require Import ZArith List Bool Lia Arith.
Import ListNotations.
Open Scope Z_scope.
Open Scope list_scope.

Set Implicit Arguments.
Set Warnings "-register-all".

(** ** Python exceptions and results *)

Inductive exn : Type :=
| ValueError
| TypeError
| KeyError
| AttributeError
| JSONDecodeError
| OtherError (tag : string).

Inductive result (A : Type) : Type :=
| Ok (a : A)
| Raise (e : exn).
Arguments Ok {A} a.
Arguments Raise {A} e.

(** ** Python built-ins used by the program *)

Module Py.

(** [len(range(start, stop, step))] for a non-zero step. *)
Definition range_len (start stop step : Z) : nat :=
  if 0 <? step then
    if start <? stop then Z.to_nat ((stop - start - 1) / step + 1) else O
  else
    if stop <? start then Z.to_nat ((start - stop - 1) / (- step) + 1) else O.

(** [range(start, stop, step)]; a zero step raises [ValueError]. *)
Definition range3 (start stop step : Z) : result (list Z) :=
  if step =? 0 then Raise ValueError
  else Ok (map (fun k => start + Z.of_nat k * step)
               (seq 0 (range_len start stop step))).

(** [range(stop)]. *)
Definition range1 (stop : Z) : list Z :=
  map Z.of_nat (seq 0 (Z.to_nat stop)).

(** Clamping of one slice bound against a list of length [len]. *)
Definition slice_bound (len x : Z) : Z :=
  if x <? 0 then Z.max 0 (x + len) else Z.min x len.

(** [lst[i:j]] (step 1). *)
Definition slice {A} (lst : list A) (i j : Z) : list A :=
  let len := Z.of_nat (length lst) in
  let lo := slice_bound len i in
  let hi := slice_bound len j in
  if lo <? hi then firstn (Z.to_nat (hi - lo)) (skipn (Z.to_nat lo) lst)
  else [].

End Py.

(** ** The chunker (source lines 45-47)

    [chunk_list] is a generator; its consumer ([enumerate] in the batch loop)
    runs it to the end while [lst] is not mutated, so the model lists the
    yielded values in order. *)

Definition chunk_list {A} (lst : list A) (n : Z) : result (list (list A)) :=
  match Py.range3 0 (Z.of_nat (length lst)) n with
  | Raise e => Raise e
  | Ok idx => Ok (map (fun i => Py.slice lst i (i + n)) idx)
  end.

(** The [k]-th batch, as a window of the list. *)
Definition window {A} (N : nat) (lst : list A) (k : nat) : list A :=
  firstn N (skipn (k * N) lst).

(** The number of batches promised for [L] identifiers and size [N]. *)
Definition ceil_div (L N : Z) : Z := (L + N - 1) / N.


(** ** Strings and dicts *)

Open Scope string_scope.
Open Scope list_scope.
Open Scope Z_scope.

Module Str.

(** [str.lower()] on one byte.  Strings are byte strings (UTF-8); only
    the ASCII capitals change, and no byte of a multi-byte character
    equals an ASCII letter, so comparing a lowered name with ["gtin"]
    agrees with Python's Unicode [lower()]. *)
Definition lower_ascii (c : ascii) : ascii :=
  let n := nat_of_ascii c in
  if ((65 <=? n)%nat && (n <=? 90)%nat)%bool then ascii_of_nat (n + 32) else c.

Fixpoint lower (s : string) : string :=
  match s with
  | EmptyString => EmptyString
  | String c r => String (lower_ascii c) (lower r)
  end.

(** [sub in s] for two strings: substring test. *)
Fixpoint contains (sub s : string) : bool :=
  if String.prefix sub s then true
  else match s with
       | EmptyString => false
       | String _ r => contains sub r
       end.

End Str.

(** A Python [dict] with string keys: the items in insertion order.  A key
    assigned again keeps its position and takes the new value. *)
Module Dict.

Definition t (V : Type) : Type := list (string * V).

Fixpoint getitem {V} (k : string) (d : t V) : option V :=
  match d with
  | [] => None
  | (k', v) :: r => if String.eqb k k' then Some v else getitem k r
  end.

Definition mem {V} (k : string) (d : t V) : bool :=
  match getitem k d with Some _ => true | None => false end.

Fixpoint setitem {V} (k : string) (v : V) (d : t V) : t V :=
  match d with
  | [] => [(k, v)]
  | (k', v') :: r =>
      if String.eqb k k' then (k, v) :: r else (k', v') :: setitem k v r
  end.

Definition keys {V} (d : t V) : list string := map fst d.
Definition values {V} (d : t V) : list V := map snd d.

(** [{**d1, **d2}]. *)
Definition merge {V} (d1 d2 : t V) : t V :=
  fold_left (fun acc kv => setitem (fst kv) (snd kv) acc) d2 d1.

End Dict.

(** ** JSON payloads, as [response.json()] returns them *)

Inductive json : Type :=
| JNull
| JBool (b : bool)
| JNum (z : Z)
| JStr (s : string)
| JArr (items : list json)
| JObj (members : list (string * json)).

Definition is_dict (v : json) : bool :=
  match v with JObj _ => true | _ => false end.

Definition is_str_eq (s : string) (v : json) : bool :=
  match v with JStr t => String.eqb s t | _ => false end.

(** [key in data] (source line 108): key membership for a dict, element
    membership for a list, substring test for a str; [None], booleans and
    numbers are not iterable. *)
Definition py_in (key : string) (data : json) : result bool :=
  match data with
  | JObj members => Ok (Dict.mem key members)
  | JArr items => Ok (existsb (is_str_eq key) items)
  | JStr s => Ok (Str.contains key s)
  | JNull | JBool _ | JNum _ => Raise TypeError
  end.

(** [data[key]] for a str key (source line 109). *)
Definition py_getitem (data : json) (key : string) : result json :=
  match data with
  | JObj members =>
      match Dict.getitem key members with
      | Some v => Ok v
      | None => Raise KeyError
      end
  | _ => Raise TypeError
  end.

(** ** Data frames *)

(** One cell: a value taken from the payload, the [NaN] pandas fills holes
    with, or [pd.NA]. *)
Inductive cell : Type :=
| CVal (v : json)
| CNaN
| CNA.

Definition is_missing_marker (c : cell) : bool :=
  match c with CVal _ => false | CNaN | CNA => true end.

(** A frame with string column labels; [rows] are aligned with [columns].
    The integer index is implicit ([ignore_index=True] everywhere). *)
Record DataFrame : Type := {
  columns : list string;
  rows : list (list cell)
}.

Definition COLUMNS_OF_INTEREST : list string :=
  ["gtin"; "gs1Licence.licenseeName"; "gs1Licence.licenceKey";
   "gs1Licence.licenseeGLN"; "validationErrors"].
Arguments COLUMNS_OF_INTEREST : simpl never.

Definition in_labels (c : string) (cols : list string) : bool :=
  existsb (String.eqb c) cols.

(** The cell of [row] under label [c]. *)
Fixpoint lookup_cell (cols : list string) (row : list cell) (c : string)
  : option cell :=
  match cols, row with
  | c' :: cs, x :: xs => if String.eqb c c' then Some x else lookup_cell cs xs c
  | _, _ => None
  end.

Definition cell_or_nan (o : option cell) : cell :=
  match o with Some x => x | None => CNaN end.

(** Replace the cell under label [c]. *)
Fixpoint replace_cell (cols : list string) (row : list cell) (c : string)
  (v : cell) : list cell :=
  match cols, row with
  | c' :: cs, x :: xs =>
      if String.eqb c c' then v :: xs else x :: replace_cell cs xs c v
  | _, _ => row
  end.

Module Pd.

(** [_normalise_json]: nested dicts become dotted keys. *)
Fixpoint normalise_json (data : json) (key_string : string)
  (normalized_dict : Dict.t json) : Dict.t json :=
  match data with
  | JObj members =>
      (fix items (ms : list (string * json)) (acc : Dict.t json) :=
         match ms with
         | [] => acc
         | (key, value) :: ms' =>
             let new_key :=
               if String.eqb key_string "" then key
               else (key_string ++ "." ++ key)%string in
             items ms' (normalise_json value new_key acc)
         end) members normalized_dict
  | _ => Dict.setitem key_string data normalized_dict
  end.

(** [_normalise_json_ordered]: the top-level scalars first, then the
    flattened nested dicts. *)
Definition normalise_json_ordered (members : list (string * json))
  : Dict.t json :=
  let top_dict := filter (fun kv => negb (is_dict (snd kv))) members in
  let nested := filter (fun kv => is_dict (snd kv)) members in
  Dict.merge (fold_left (fun acc kv => Dict.setitem (fst kv) (snd kv) acc)
                        top_dict [])
             (normalise_json (JObj nested) "" []).

(** Labels of [DataFrame(list of dicts)]: the keys in order of first
    appearance. *)
Definition union_labels (acc new : list string) : list string :=
  fold_left (fun a c => if in_labels c a then a else a ++ [c]) new acc.

Definition frame_of_records (recs : list (Dict.t json)) : DataFrame :=
  let cols := fold_left (fun a r => union_labels a (Dict.keys r)) recs [] in
  {| columns := cols;
     rows := map (fun r => map (fun c => match Dict.getitem c r with
                                         | Some v => CVal v
                                         | None => CNaN
                                         end) cols) recs |}.

Fixpoint all_objects (items : list json)
  : option (list (list (string * json))) :=
  match items with
  | [] => Some []
  | JObj ms :: r =>
      match all_objects r with
      | Some l => Some (ms :: l)
      | None => None
      end
  | _ :: _ => None
  end.

(** [df[col] = value] with a scalar value. *)
Definition setitem (df : DataFrame) (col : string) (value : cell)
  : DataFrame :=
  if in_labels col (columns df)
  then {| columns := columns df;
          rows := map (fun r => replace_cell (columns df) r col value)
                      (rows df) |}
  else {| columns := columns df ++ [col];
          rows := map (fun r => r ++ [value]) (rows df) |}.

(** [df[cols]] with a list of labels. *)
Definition getitem_list (df : DataFrame) (cols : list string)
  : result DataFrame :=
  if forallb (fun c => in_labels c (columns df)) cols
  then Ok {| columns := cols;
             rows := map (fun r =>
                            map (fun c =>
                                   cell_or_nan (lookup_cell (columns df) r c))
                                cols)
                         (rows df) |}
  else Raise KeyError.

(** [pd.concat(frames, ignore_index=True)]: the union of the labels, the
    rows of each frame in order, holes filled with [NaN]. *)
Definition concat (frames : list DataFrame) : result DataFrame :=
  match frames with
  | [] => Raise ValueError
  | _ =>
      let cols :=
        fold_left (fun a f => union_labels a (columns f)) frames [] in
      Ok {| columns := cols;
            rows :=
              flat_map
                (fun f =>
                   map (fun r =>
                          map (fun c =>
                                 cell_or_nan (lookup_cell (columns f) r c))
                              cols)
                       (rows f))
                frames |}
  end.

(** The strings the readers take for a missing value (pandas'
    [STR_NA_VALUES]); the empty field is one of them. *)
Definition STR_NA_VALUES : list string :=
  [""; "#N/A"; "#N/A N/A"; "#NA"; "-1.#IND"; "-1.#QNAN"; "-NaN"; "-nan";
   "1.#IND"; "1.#QNAN"; "<NA>"; "N/A"; "NA"; "NULL"; "NaN"; "None"; "n/a";
   "nan"; "null"].

Definition parse_field (s : string) : option string :=
  if existsb (String.eqb s) STR_NA_VALUES then None else Some s.

(** [series.dropna().astype(str).tolist()] on a column read with
    [dtype=str]. *)
Fixpoint dropna_tolist (series : list (option string)) : list string :=
  match series with
  | [] => []
  | Some s :: r => s :: dropna_tolist r
  | None :: r => dropna_tolist r
  end.

End Pd.

(** ** Responses, the world and the effect monad *)

(** What the pipeline reads of a [requests.Response]: the status and the
    outcome of [response.json()] ([None] when the body is not valid JSON and
    the call raises). *)
Record Response : Type := {
  status_code : Z;
  json_body : option json
}.

(** [bool(response)] is [response.ok]: no client or server error status. *)
Definition response_ok (r : Response) : bool :=
  negb ((400 <=? status_code r) && (status_code r <? 600)).

Definition response_json (r : Response) : result json :=
  match json_body r with
  | Some v => Ok v
  | None => Raise JSONDecodeError
  end.

(** One [requests.post] call ends with a response, with a
    [requests.exceptions.RequestException] (timeout, connection error), or
    with an exception of another class. *)
Inductive outcome : Type :=
| Responded (r : Response)
| RequestException
| Crashed (e : exn).

(** The world outside the process: how many requests were posted and the
    sleeps taken so far, oldest first. *)
Record World : Type := {
  calls : nat;
  slept : list Z
}.

(** The warnings, the error, the success message and the usage record, in
    the order they are emitted.  What only displays progress (the heading
    of line 77, the progress bar and the status text of lines 115-117) is
    not an event.
    - [WarnUnreadable]: "Could not read `name`: ..." (line 85)
    - [WarnNoColumn]: "No 'GTIN' column in `name`. Skipping." (line 91)
    - [WarnNoGtins]: "No GTINs found in `name`. Skipping." (line 97)
    - [WarnNoValid]: "No valid results in `name`." (line 124)
    - [UsageLogged]: the line [log_usage] appends (line 130)
    - [SuccessAll]: "All files processed. Ready for download." (line 131)
    - [ErrorNoData]: "No data was processed." (line 133) *)
Inductive event : Type :=
| WarnUnreadable (name : string)
| WarnNoColumn (name : string)
| WarnNoGtins (name : string)
| WarnNoValid (name : string)
| UsageLogged (user : string) (file_count : Z)
| SuccessAll
| ErrorNoData.

(** A computation: from a world to a result or an exception, the next
    world and the messages emitted on the way. *)
Definition M (A : Type) : Type := World -> result A * World * list event.

Definition ret {A} (a : A) : M A := fun w => (Ok a, w, []).

Definition bind {A B} (m : M A) (f : A -> M B) : M B :=
  fun w =>
    match m w with
    | (Ok a, w1, e1) =>
        match f a w1 with
        | (r, w2, e2) => (r, w2, e1 ++ e2)
        end
    | (Raise e, w1, e1) => (Raise e, w1, e1)
    end.

Definition lift {A} (r : result A) : M A := fun w => (r, w, []).

Definition emit (ev : event) : M unit := fun w => (Ok tt, w, [ev]).

Notation "x <- m ;; k" := (bind m (fun x => k))
  (at level 61, m at next level, right associativity).
Notation "m ;;; k" := (bind m (fun _ => k))
  (at level 61, right associativity).

(** [time.sleep(seconds)]. *)
Definition time_sleep (seconds : Z) : M unit :=
  fun w => (Ok tt, {| calls := calls w; slept := slept w ++ [seconds] |}, []).

(** A column label.  [pd.read_csv] labels every column with a str;
    [pd.read_excel] keeps a header cell that holds a number or a date as the
    int, float or datetime it is ([dtype=str] is for the fields, not for
    the labels). *)
Inductive label : Type :=
| LStr (s : string)
| LOther (repr : string).

(** [df.columns]. *)
Definition labels {C} (df : list (label * C)) : list label := map fst df.

(** [df[col]] for a str [col]: the first column with that label; a str
    never equals a label that is no str. *)
Fixpoint column {C} (df : list (label * C)) (col : string) : option C :=
  match df with
  | [] => None
  | (LStr s, c) :: r => if String.eqb col s then Some c else column r col
  | (LOther _, _) :: r => column r col
  end.

(** An uploaded file: its name and what the reader chosen at line 83
    ([pd.read_csv] or [pd.read_excel], by extension) finds in it: the columns
    with their labels and their fields as text, or [None] when the reader
    raises. *)
Record UploadedFile : Type := {
  name : string;
  parsed : option (list (label * list string))
}.

(** [pd.read_csv(f, dtype=str)] / [pd.read_excel(f, dtype=str)]: every field
    a string, the missing-value strings turned into [NaN]. *)
Definition pd_read (f : UploadedFile)
  : result (list (label * list (option string))) :=
  match parsed f with
  | None => Raise (OtherError "read")
  | Some cols =>
      Ok (map (fun c => (fst c, map Pd.parse_field (snd c))) cols)
  end.

(** What the loop over the files accumulates (lines 69-70). *)
Record RunState : Type := {
  all_data : list DataFrame;
  individual_results : Dict.t DataFrame
}.

(** [st.session_state], as far as the run touches it. *)
Record Session : Type := {
  user_name : string;
  final_df : option DataFrame;
  ss_individual_results : option (Dict.t DataFrame)
}.

(** One pass through the body of the retry loop either returns or goes on
    to the next attempt. *)
Inductive flow (A : Type) : Type :=
| Return (a : A)
| Continue.
Arguments Return {A} a.
Arguments Continue {A}.

(** The same outcome with the messages [evs] emitted before it. *)
Definition prepend_events {A} (evs : list event)
  (x : result A * World * list event) : result A * World * list event :=
  match x with (r, w, e) => (r, w, evs ++ e) end.

(** A transient failure of one request: status 503 or a
    [RequestException]. *)
Definition transient (o : outcome) : bool :=
  match o with
  | Responded r => status_code r =? 503
  | RequestException => true
  | Crashed _ => false
  end.

(** The world after [n] more requests and the sleeps [delays]. *)
Definition advance (w : World) (n : nat) (delays : list Z) : World :=
  {| calls := calls w + n; slept := slept w ++ delays |}.

Section Pipeline.

(** The endpoint behind [API_URL] and [HEADERS]: the outcome of the
    [i]-th request of the run, for the batch it carries. *)
Variable remote : nat -> list string -> outcome.

(** [pd.json_normalize] on a value that is neither a dict nor a list of
    dicts: left open, no result below depends on it. *)
Variable normalize_other : json -> result DataFrame.

(** [requests.post(url, headers=headers, json=data, timeout=30)]. *)
Definition requests_post (data : list string) : World -> outcome * World :=
  fun w => (remote (calls w) data,
            {| calls := S (calls w); slept := slept w |}).

(** The body of the [for] loop of [post_with_retry] (lines 51-58). *)
Definition attempt_once (data : list string) (attempt : Z)
  : M (flow Response) :=
  fun w =>
    match requests_post data w with
    | (Responded response, w1) =>
        if status_code response =? 503
        then (time_sleep (2 ^ attempt) ;;; ret Continue) w1
        else (Ok (Return response), w1, [])
    | (RequestException, w1) =>
        (time_sleep (2 ^ attempt) ;;; ret Continue) w1
    | (Crashed e, w1) => (Raise e, w1, [])
    end.

Fixpoint retry_loop (data : list string) (attempts : list Z)
  : M (option Response) :=
  match attempts with
  | [] => ret None
  | attempt :: rest =>
      fl <- attempt_once data attempt ;;
      match fl with
      | Return response => ret (Some response)
      | Continue => retry_loop data rest
      end
  end.

(** [post_with_retry(url, headers, data, max_retries=5)] (lines 49-59). *)
Definition post_with_retry (data : list string) (max_retries : Z)
  : M (option Response) :=
  retry_loop data (Py.range1 max_retries).

(** [pd.json_normalize(data)] with the default arguments. *)
Definition json_normalize (data : json) : result DataFrame :=
  match data with
  | JObj members =>
      Ok (Pd.frame_of_records [Pd.normalise_json_ordered members])
  | JArr items =>
      match Pd.all_objects items with
      | Some recs =>
          Ok (Pd.frame_of_records (map Pd.normalise_json_ordered recs))
      | None => normalize_other data
      end
  | _ => normalize_other data
  end.

(** Lines 110-112: every column of interest the frame lacks is added,
    filled with [pd.NA]. *)
Definition fill_missing_columns (products_data : DataFrame) : DataFrame :=
  fold_left (fun df col =>
               if negb (in_labels col (columns df))
               then Pd.setitem df col CNA else df)
            COLUMNS_OF_INTEREST products_data.

(** Lines 109-113: the table one payload with a ['products'] entry
    contributes. *)
Definition normalize_products (products : json) : result DataFrame :=
  match json_normalize products with
  | Raise e => Raise e
  | Ok products_data =>
      Pd.getitem_list (fill_missing_columns products_data) COLUMNS_OF_INTEREST
  end.

(** Lines 106-113: what one response does to [results_df]. *)
Definition absorb_response (response : option Response)
  (results_df : list DataFrame) : result (list DataFrame) :=
  match response with
  | Some r =>
      if response_ok r && (status_code r =? 200) then
        match response_json r with
        | Raise e => Raise e
        | Ok data =>
            match py_in "products" data with
            | Raise e => Raise e
            | Ok true =>
                match py_getitem data "products" with
                | Raise e => Raise e
                | Ok products =>
                    match normalize_products products with
                    | Raise e => Raise e
                    | Ok table => Ok (results_df ++ [table])
                    end
                end
            | Ok false => Ok results_df
            end
        end
      else Ok results_df
  | None => Ok results_df
  end.

(** The loop over the batches (lines 104-117).  The progress bar and the
    status text (lines 115-117) only display and are left out. *)
Fixpoint batch_loop (chunks : list (list string)) (results_df : list DataFrame)
  : M (list DataFrame) :=
  match chunks with
  | [] => ret results_df
  | chunk :: rest =>
      response <- post_with_retry chunk 5 ;;
      results_df' <- lift (absorb_response response results_df) ;;
      batch_loop rest results_df'
  end.

(** Line 89: [{col.lower(): col for col in df.columns}].  A label that is
    no str has no [lower]: the comprehension raises [AttributeError]. *)
Definition normalized_cols (cols : list label) : result (Dict.t string) :=
  fold_left (fun acc col =>
               match acc, col with
               | Ok d, LStr s => Ok (Dict.setitem (Str.lower s) s d)
               | Ok _, LOther _ => Raise AttributeError
               | Raise e, _ => Raise e
               end)
            cols (Ok []).

(** Line 95: [df[gtin_col].dropna().astype(str).tolist()]. *)
Definition extract_gtins (df : list (label * list (option string)))
  (gtin_col : string) : result (list string) :=
  match column df gtin_col with
  | Some series => Ok (Pd.dropna_tolist series)
  | None => Raise KeyError
  end.

(** The body of the loop over the files (lines 76-124).  The heading of
    line 77 only displays and is left out. *)
Definition process_file (uploaded_file : UploadedFile) (st : RunState)
  : M RunState :=
  match pd_read uploaded_file with
  | Raise _ => emit (WarnUnreadable (name uploaded_file)) ;;; ret st
  | Ok df =>
      cols <- lift (normalized_cols (labels df)) ;;
      match Dict.getitem "gtin" cols with
      | None => emit (WarnNoColumn (name uploaded_file)) ;;; ret st
      | Some gtin_col =>
          gtins <- lift (extract_gtins df gtin_col) ;;
          match gtins with
          | [] => emit (WarnNoGtins (name uploaded_file)) ;;; ret st
          | _ :: _ =>
              chunks <- lift (chunk_list gtins 10) ;;
              results_df <- batch_loop chunks [] ;;
              match results_df with
              | [] => emit (WarnNoValid (name uploaded_file)) ;;; ret st
              | _ :: _ =>
                  final_result <- lift (Pd.concat results_df) ;;
                  ret {| all_data := all_data st ++ [final_result];
                         individual_results :=
                           Dict.setitem (name uploaded_file) final_result
                                        (individual_results st) |}
              end
          end
      end
  end.

(** The loop over the files (line 75). *)
Fixpoint file_loop (files : list UploadedFile) (st : RunState) : M RunState :=
  match files with
  | [] => ret st
  | uploaded_file :: rest =>
      st' <- process_file uploaded_file st ;;
      file_loop rest st'
  end.

Definition initial_state : RunState :=
  {| all_data := []; individual_results := [] |}.

(** [log_usage(user, file_count)]: one line appended to the usage log. *)
Definition log_usage (user : string) (file_count : Z) : M unit :=
  emit (UsageLogged user file_count).

(** The main logic (lines 68-133), from the session state before the run to
    the session state after it. *)
Definition main (uploaded_files : list UploadedFile) (ss : Session)
  : M Session :=
  match uploaded_files with
  | [] => ret ss
  | _ :: _ =>
      st <- file_loop uploaded_files initial_state ;;
      match all_data st with
      | _ :: _ =>
          combined_df <- lift (Pd.concat (all_data st)) ;;
          log_usage (user_name ss) (Z.of_nat (length uploaded_files)) ;;;
          emit SuccessAll ;;;
          ret {| user_name := user_name ss;
                 final_df := Some combined_df;
                 ss_individual_results := Some (individual_results st) |}
      | [] => emit ErrorNoData ;;; ret ss
      end
  end.

End Pipeline.

(** ** The aggregators, as the specification words them

    Section 4.4: the File-Level Aggregator yields one table for a source,
    or none when the source is skipped.  Section 4.5: the Run Aggregator
    collects the named tables that were not skipped, in processing order.
    These are compared with [process_file] and [file_loop] below. *)

Section Aggregators.
Variable remote : nat -> list string -> outcome.
Variable normalize_other : json -> result DataFrame.

Definition source_table (uploaded_file : UploadedFile)
  : M (option DataFrame) :=
  match pd_read uploaded_file with
  | Raise _ => emit (WarnUnreadable (name uploaded_file)) ;;; ret None
  | Ok df =>
      cols <- lift (normalized_cols (labels df)) ;;
      match Dict.getitem "gtin" cols with
      | None => emit (WarnNoColumn (name uploaded_file)) ;;; ret None
      | Some gtin_col =>
          gtins <- lift (extract_gtins df gtin_col) ;;
          match gtins with
          | [] => emit (WarnNoGtins (name uploaded_file)) ;;; ret None
          | _ :: _ =>
              chunks <- lift (chunk_list gtins 10) ;;
              results_df <- batch_loop remote normalize_other chunks [] ;;
              match results_df with
              | [] => emit (WarnNoValid (name uploaded_file)) ;;; ret None
              | _ :: _ =>
                  final_result <- lift (Pd.concat results_df) ;;
                  ret (Some final_result)
              end
          end
      end
  end.

(** Lines 121-122: the table joins both views. *)
Definition add_table (st : RunState) (entry : string * DataFrame) : RunState :=
  {| all_data := all_data st ++ [snd entry];
     individual_results :=
       Dict.setitem (fst entry) (snd entry) (individual_results st) |}.

Definition collect (source : string) (o : option DataFrame) (st : RunState)
  : RunState :=
  match o with
  | Some t => add_table st (source, t)
  | None => st
  end.

(** The named tables of the sources that were not skipped, in processing
    order. *)
Fixpoint collected (files : list UploadedFile)
  : M (list (string * DataFrame)) :=
  match files with
  | [] => ret []
  | uploaded_file :: rest =>
      o <- source_table uploaded_file ;;
      l <- collected rest ;;
      ret (match o with
           | Some t => (name uploaded_file, t) :: l
           | None => l
           end)
  end.

End Aggregators.

(** ** Vocabulary of the properties *)

(** The fixed schema: the five labels in their order, five cells a row. *)
Definition schema_ok (t : DataFrame) : Prop :=
  columns t = COLUMNS_OF_INTEREST
  /\ Forall (fun r => length r = 5%nat) (rows t).

(** The cell of a record under a label: the value the flattened entry has
    for it, or a missing-value marker when the entry has none. *)
Definition cell_matches (entry : Dict.t json) (c : string) (x : cell) : Prop :=
  match Dict.getitem c entry with
  | Some v => x = CVal v
  | None => is_missing_marker x = true
  end.

(** The tables a session holds have the fixed schema. *)
Definition session_ok (ss : Session) : Prop :=
  (forall t, final_df ss = Some t -> schema_ok t)
  /\ (forall d, ss_individual_results ss = Some d ->
                Forall schema_ok (Dict.values d)).



(** Lines 126-133, after the file loop, for [n] uploaded files. *)
Definition finalize (n : nat) (ss : Session) (st : RunState) : M Session :=
  match all_data st with
  | _ :: _ =>
      combined_df <- lift (Pd.concat (all_data st)) ;;
      log_usage (user_name ss) (Z.of_nat n) ;;;
      emit SuccessAll ;;;
      ret {| user_name := user_name ss;
             final_df := Some combined_df;
             ss_individual_results := Some (individual_results st) |}
  | [] => emit ErrorNoData ;;; ret ss
  end.

(** The result and the world of an outcome, without the messages. *)
Definition silent {A} (x : result A * World * list event) : result A * World :=
  fst x.

(** ** Scenarios of section 8 of the specification *)

Module Scenario.

Definition world0 : World := {| calls := 0; slept := [] |}.

Definition session0 : Session :=
  {| user_name := "bryon"; final_df := None; ss_individual_results := None |}.

Definition response_503 : Response :=
  {| status_code := 503; json_body := None |}.

Definition response_200 (payload : json) : Response :=
  {| status_code := 200; json_body := Some payload |}.

(** A payload with one product that carries only its [gtin]. *)
Definition one_product (gtin : string) : json :=
  JObj [("products", JArr [JObj [("gtin", JStr gtin)]])].

(** Scenario 2: three times 503, then 200. *)
Definition remote_503x3_then_200 (i : nat) (data : list string) : outcome :=
  if (i <? 3)%nat then Responded response_503
  else Responded (response_200 (one_product "00012345678905")).

(** Every request times out. *)
Definition remote_down (i : nat) (data : list string) : outcome :=
  RequestException.

(** [pd.json_normalize] outside dicts and lists of dicts: the scenarios
    never reach it. *)
Definition no_other_shape (v : json) : result DataFrame :=
  Raise (OtherError "json_normalize").

(** The service answers every batch with one product per identifier. *)
Definition remote_echo (i : nat) (data : list string) : outcome :=
  Responded
    (response_200
       (JObj [("products",
               JArr (map (fun g => JObj [("gtin", JStr g)]) data))])).


(** The service answers 200 with a body that is not JSON. *)
Definition remote_garbled (i : nat) (data : list string) : outcome :=
  Responded {| status_code := 200; json_body := None |}.


(** Scenario 1: a column [GTIN] with an empty field in the middle. *)
Definition file_gtin : UploadedFile :=
  {| name := "first.csv";
     parsed := Some [(LStr "GTIN", ["00012345678905"; ""; "00098765432109"])] |}.

(** Scenario 3: a column [SKU] and no [GTIN]. *)
Definition file_sku : UploadedFile :=
  {| name := "skus.csv"; parsed := Some [(LStr "SKU", ["4711"])] |}.

(** A [GTIN] column with nothing in it. *)
Definition file_blank : UploadedFile :=
  {| name := "blank.csv"; parsed := Some [(LStr "gtin", [""; "NaN"])] |}.

(** Two uploads that carry the same name. *)
Definition file_north : UploadedFile :=
  {| name := "list.csv"; parsed := Some [(LStr "gtin", ["00012345678905"])] |}.

Definition file_south : UploadedFile :=
  {| name := "list.csv"; parsed := Some [(LStr "gtin", ["00098765432109"])] |}.

Definition record_of (g : string) : list cell :=
  [CVal (JStr g); CNA; CNA; CNA; CNA].

Definition table_of (gtins : list string) : DataFrame :=
  {| columns := COLUMNS_OF_INTEREST; rows := map record_of gtins |}.

(** The session after [file_gtin] alone, every batch echoed. *)
Definition session_first : Session :=
  {| user_name := "bryon";
     final_df := Some (table_of ["00012345678905"; "00098765432109"]);
     ss_individual_results :=
       Some [("first.csv", table_of ["00012345678905"; "00098765432109"])] |}.

(** The session after [file_north] and [file_south], every batch echoed. *)
Definition session_same_name : Session :=
  {| user_name := "bryon";
     final_df := Some (table_of ["00012345678905"; "00098765432109"]);
     ss_individual_results :=
       Some [("list.csv", table_of ["00098765432109"])] |}.

End Scenario.

(** ** Vocabulary of the further properties *)

(** The time slept over a list of delays. *)
Definition total (delays : list Z) : Z := fold_right Z.add 0 delays.

Definition is_warning (ev : event) : bool :=
  match ev with
  | WarnUnreadable _ | WarnNoColumn _ | WarnNoGtins _ | WarnNoValid _ => true
  | UsageLogged _ _ | SuccessAll | ErrorNoData => false
  end.


(** The table of the fixed schema without a record. *)
Definition empty_table : DataFrame :=
  {| columns := COLUMNS_OF_INTEREST; rows := [] |}.

(** The test of line 136: the download section is shown. *)
Definition download_offered (ss : Session) : bool :=
  match final_df ss, ss_individual_results ss with
  | Some _, Some _ => true
  | _, _ => false
  end.

(** Line 117: the number of identifiers the status text reports as
    processed after the batch of index [i]. *)
Definition status_count (i : nat) : Z := (Z.of_nat i + 1) * 10.

(** The sleeps of one batch whose five attempts all fail. *)
Definition exhausted_delays : list Z := [1; 2; 4; 8; 16].

Module Extra.

(** The service answers every request with status 404. *)
Definition remote_404 (i : nat) (data : list string) : outcome :=
  Responded {| status_code := 404; json_body := None |}.

(** The service answers every batch with an empty product list. *)
Definition response_no_match : Response :=
  {| status_code := 200; json_body := Some (JObj [("products", JArr [])]) |}.

Definition remote_no_match (i : nat) (data : list string) : outcome :=
  Responded response_no_match.

(** One timeout, then an exception that is no [RequestException]. *)
Definition remote_crash (i : nat) (data : list string) : outcome :=
  if (i <? 1)%nat then RequestException else Crashed (OtherError "interrupt").



(** Two columns whose names lower-case to ["gtin"]. *)
Definition file_two_columns : UploadedFile :=
  {| name := "two.csv";
     parsed := Some [(LStr "GTIN", ["00012345678905"]);
                     (LStr "note", ["x"]);
                     (LStr "gtin", ["00098765432109"])] |}.

(** A workbook whose header row holds the number 2024 beside [SKU]: no
    column is named [GTIN]. *)
Definition file_numeric_header : UploadedFile :=
  {| name := "sales.xlsx";
     parsed := Some [(LOther "2024", ["12"]); (LStr "SKU", ["4711"])] |}.

(** One 503, then status 200 with a body that is not JSON. *)
Definition remote_503_then_garbled (i : nat) (data : list string) : outcome :=
  if (i <? 1)%nat then Responded Scenario.response_503
  else Responded {| status_code := 200; json_body := None |}.

(** A file the reader cannot parse. *)
Definition file_broken : UploadedFile :=
  {| name := "broken.xlsx"; parsed := None |}.

(** Twelve identifiers: two batches. *)
Definition file_twelve : UploadedFile :=
  {| name := "twelve.csv";
     parsed := Some [(LStr "gtin", ["01"; "02"; "03"; "04"; "05"; "06";
                                    "07"; "08"; "09"; "10"; "11"; "12"])] |}.

End Extra.

(** * Properties *)

Unset Implicit Arguments.

(** ** The chunker *)

Section Chunker.
Context {A : Type}.

Lemma slice_inside (lst : list A) (i n : Z) :
  0 <= i -> 0 < n -> i < Z.of_nat (length lst) ->
  Py.slice lst i (i + n) = firstn (Z.to_nat n) (skipn (Z.to_nat i) lst).
Proof.
  intros Hi Hn Hlt. unfold Py.slice, Py.slice_bound.
  destruct (Z.ltb_spec i 0); [lia|].
  destruct (Z.ltb_spec (i + n) 0); [lia|].
  destruct (Z.ltb_spec (Z.min i (Z.of_nat (length lst)))
                       (Z.min (i + n) (Z.of_nat (length lst)))); [|lia].
  rewrite (Z.min_l i) by lia.
  destruct (Z.le_ge_cases (i + n) (Z.of_nat (length lst))) as [Hle|Hge].
  - rewrite Z.min_l by lia. f_equal. lia.
  - rewrite Z.min_r by lia.
    rewrite (firstn_all2 (n := Z.to_nat n)) by (rewrite length_skipn; lia).
    apply firstn_all2. rewrite length_skipn. lia.
Qed.

Lemma range_len_pos (L n : Z) :
  0 < n -> 0 <= L -> Z.of_nat (Py.range_len 0 L n) = ceil_div L n.
Proof.
  intros Hn HL. unfold Py.range_len, ceil_div.
  destruct (Z.ltb_spec 0 n); [|lia].
  destruct (Z.ltb_spec 0 L).
  - rewrite Z2Nat.id.
    + replace (L + n - 1) with ((L - 0 - 1) + 1 * n) by lia.
      rewrite Z.div_add by lia. reflexivity.
    + assert (0 <= (L - 0 - 1) / n) by (apply Z.div_pos; lia). lia.
  - assert (L = 0) by lia. subst L. simpl.
    symmetry. apply Z.div_small. lia.
Qed.

(** [ceil_div] is the ceiling of the quotient. *)
Lemma ceil_div_bounds (L n : Z) :
  0 < n -> 0 <= L -> (ceil_div L n - 1) * n < L <= ceil_div L n * n.
Proof.
  intros Hn HL. unfold ceil_div.
  pose proof (Z.div_mod (L + n - 1) n ltac:(lia)) as E.
  pose proof (Z.mod_pos_bound (L + n - 1) n Hn) as B.
  nia.
Qed.

Lemma firstn_plus (a b : nat) (l : list A) :
  firstn (a + b) l = firstn a l ++ firstn b (skipn a l).
Proof.
  revert l. induction a as [|a IH]; intros l; simpl.
  - reflexivity.
  - destruct l as [|x l]; simpl.
    + now rewrite firstn_nil.
    + now rewrite IH.
Qed.

Lemma concat_windows (N : nat) (lst : list A) (m : nat) :
  concat (map (window N lst) (seq 0 m)) = firstn (m * N) lst.
Proof.
  induction m as [|m IH].
  - reflexivity.
  - rewrite seq_S, map_app, concat_app, IH. simpl.
    rewrite app_nil_r. unfold window.
    replace (N + m * N)%nat with (m * N + N)%nat by lia.
    now rewrite firstn_plus.
Qed.

Lemma chunk_list_windows (lst : list A) (n : Z) :
  0 < n ->
  chunk_list lst n =
  Ok (map (window (Z.to_nat n) lst)
          (seq 0 (Py.range_len 0 (Z.of_nat (length lst)) n))).
Proof.
  intros Hn. unfold chunk_list, Py.range3.
  destruct (Z.eqb_spec n 0); [lia|].
  f_equal. rewrite map_map. apply map_ext_in. intros k Hk.
  apply in_seq in Hk.
  pose proof (range_len_pos _ _ Hn (Nat2Z.is_nonneg (length lst))) as Hc.
  pose proof (ceil_div_bounds _ _ Hn (Nat2Z.is_nonneg (length lst))) as Hb.
  rewrite slice_inside by nia.
  unfold window. do 2 f_equal. nia.
Qed.

End Chunker.

(** C1 (chunker).  For every list of length [L] and every chunk size
    [n > 0], [chunk_list] returns (without raising) exactly the ceiling of
    [L / n] batches; every batch but the last has [n] elements; the last has
    [L mod n] elements, or [n] when [n] divides [L]; the batches concatenated
    in order are the list itself; and the empty list gives no batch. *)
Theorem chunk_list_partition :
  forall (A : Type) (lst : list A) (n : Z),
    0 < n ->
    let L := Z.of_nat (length lst) in
    exists batches : list (list A),
      chunk_list lst n = Ok batches
      /\ Z.of_nat (length batches) = ceil_div L n
      /\ (ceil_div L n - 1) * n < L <= ceil_div L n * n
      /\ concat batches = lst
      /\ (forall k, (S k < length batches)%nat ->
                    Z.of_nat (length (nth k batches [])) = n)
      /\ (batches <> [] ->
          Z.of_nat (length (last batches [])) =
          if L mod n =? 0 then n else L mod n)
      /\ (lst = [] -> batches = []).
Proof.
  intros A lst n Hn L.
  pose proof (range_len_pos _ _ Hn (Nat2Z.is_nonneg (length lst))) as Hc.
  pose proof (ceil_div_bounds _ _ Hn (Nat2Z.is_nonneg (length lst))) as Hb.
  fold L in Hc, Hb.
  set (cnt := Py.range_len 0 L n) in *.
  exists (map (window (Z.to_nat n) lst) (seq 0 cnt)).
  split; [apply chunk_list_windows; assumption|].
  split; [now rewrite length_map, length_seq|].
  split; [assumption|].
  split.
  { rewrite concat_windows. apply firstn_all2. nia. }
  split.
  { intros k Hk. rewrite length_map, length_seq in Hk.
    rewrite (nth_indep _ [] (window (Z.to_nat n) lst O))
      by (rewrite length_map, length_seq; lia).
    rewrite map_nth, seq_nth by lia. unfold window.
    rewrite length_firstn, length_skipn. nia. }
  split.
  { intros Hne. destruct cnt as [|c] eqn:Ec; [now elim Hne|].
    rewrite seq_S, map_app. simpl. rewrite last_last. unfold window.
    rewrite length_firstn, length_skipn.
    pose proof (Z.div_mod L n ltac:(lia)) as E.
    pose proof (Z.mod_pos_bound L n Hn) as B.
    destruct (Z.eqb_spec (L mod n) 0) as [H0|H0].
    - assert (Z.of_nat (S c) = L / n) by nia. nia.
    - assert (Z.of_nat (S c) = L / n + 1) by nia. nia. }
  { intros ->. subst L cnt. unfold Py.range_len. simpl.
    destruct (0 <? n); reflexivity. }
Qed.

(** Seven identifiers in batches of three: three batches, the last of
    one. *)
Lemma chunk_list_partition_witness :
  exists batches : list (list Z),
    chunk_list [1; 2; 3; 4; 5; 6; 7] 3 = Ok batches
    /\ Z.of_nat (length batches) = ceil_div 7 3
    /\ (ceil_div 7 3 - 1) * 3 < 7 <= ceil_div 7 3 * 3
    /\ concat batches = [1; 2; 3; 4; 5; 6; 7]
    /\ (forall k, (S k < length batches)%nat ->
                  Z.of_nat (length (nth k batches [])) = 3)
    /\ (batches <> [] ->
        Z.of_nat (length (last batches [])) =
        if 7 mod 3 =? 0 then 3 else 7 mod 3)
    /\ ([1; 2; 3; 4; 5; 6; 7] = [] -> batches = []).
Proof.
  apply (chunk_list_partition Z [1; 2; 3; 4; 5; 6; 7] 3). lia.
Defined.

(** ** The effect monad *)

Lemma bind_ok {A B} (m : M A) (f : A -> M B) w a w1 e1 :
  m w = (Ok a, w1, e1) -> bind m f w = prepend_events e1 (f a w1).
Proof.
  intros H. unfold bind, prepend_events. rewrite H. reflexivity.
Qed.

Lemma bind_raise {A B} (m : M A) (f : A -> M B) w e w1 e1 :
  m w = (Raise e, w1, e1) -> bind m f w = (Raise e, w1, e1).
Proof.
  intros H. unfold bind. now rewrite H.
Qed.

Lemma prepend_nil {A} (x : result A * World * list event) :
  prepend_events [] x = x.
Proof.
  now destruct x as [[r w] e].
Qed.

Lemma prepend_prepend {A} e1 e2 (x : result A * World * list event) :
  prepend_events e1 (prepend_events e2 x) = prepend_events (e1 ++ e2) x.
Proof.
  destruct x as [[r w] e]. simpl. now rewrite app_assoc.
Qed.

Lemma bind_silent {A B} (m : M A) (f : A -> M B) w a w1 :
  m w = (Ok a, w1, []) -> bind m f w = f a w1.
Proof.
  intros H. rewrite (bind_ok m f w a w1 [] H). apply prepend_nil.
Qed.

Lemma advance_0 w : advance w 0 [] = w.
Proof.
  destruct w. unfold advance. simpl. now rewrite Nat.add_0_r, app_nil_r.
Qed.

(** ** The retrying request client *)

Section Client.
Variable remote : nat -> list string -> outcome.
Variable data : list string.

Lemma attempt_once_transient (attempt : Z) (w : World) :
  transient (remote (calls w) data) = true ->
  attempt_once remote data attempt w =
  (Ok Continue, advance w 1 [2 ^ attempt], []).
Proof.
  unfold attempt_once, requests_post, advance. intros H.
  destruct (remote (calls w) data) as [r| |e]; simpl in H.
  - rewrite H. cbn. now rewrite Nat.add_1_r.
  - cbn. now rewrite Nat.add_1_r.
  - discriminate.
Qed.

Lemma attempt_once_final (attempt : Z) (w : World) (r : Response) :
  remote (calls w) data = Responded r ->
  status_code r <> 503 ->
  attempt_once remote data attempt w = (Ok (Return r), advance w 1 [], []).
Proof.
  unfold attempt_once, requests_post, advance. intros H Hs. rewrite H.
  destruct (Z.eqb_spec (status_code r) 503); [contradiction|].
  now rewrite Nat.add_1_r, app_nil_r.
Qed.

Lemma retry_loop_transient_prefix (pre rest : list Z) (w : World) :
  (forall j, (j < length pre)%nat ->
             transient (remote (calls w + j) data) = true) ->
  retry_loop remote data (pre ++ rest) w =
  retry_loop remote data rest (advance w (length pre) (map (Z.pow 2) pre)).
Proof.
  revert w. induction pre as [|a pre IH]; intros w H.
  - simpl. now rewrite advance_0.
  - simpl app. cbn [retry_loop].
    rewrite bind_silent with (a := Continue) (w1 := advance w 1 [2 ^ a]).
    + rewrite IH.
      * f_equal. unfold advance. simpl. rewrite <- app_assoc. simpl.
        f_equal. lia.
      * intros j Hj. simpl.
        replace (calls w + 1 + j)%nat with (calls w + S j)%nat by lia.
        apply H. simpl. lia.
    + apply attempt_once_transient.
      specialize (H O ltac:(simpl; lia)). now rewrite Nat.add_0_r in H.
Qed.

Lemma retry_loop_exhausted (attempts : list Z) (w : World) :
  (forall j, (j < length attempts)%nat ->
             transient (remote (calls w + j) data) = true) ->
  retry_loop remote data attempts w =
  (Ok None, advance w (length attempts) (map (Z.pow 2) attempts), []).
Proof.
  intros H.
  rewrite <- (app_nil_r attempts) at 1.
  now rewrite retry_loop_transient_prefix.
Qed.

Lemma range1_split (m : Z) (k : nat) :
  Z.of_nat k < m ->
  Py.range1 m =
  map Z.of_nat (seq 0 k) ++ Z.of_nat k ::
      map Z.of_nat (seq (S k) (Z.to_nat m - S k)).
Proof.
  intros H. unfold Py.range1.
  replace (Z.to_nat m) with (k + S (Z.to_nat m - S k))%nat at 1 by lia.
  rewrite seq_app, map_app. reflexivity.
Qed.

End Client.

(** C2 (retry and backoff).  If the attempts [0 .. k-1] of one call of
    [post_with_retry] end in status 503 or in a request exception and
    attempt [k], still within the budget, gets a response with another
    status, then the client has slept [2^0, ..., 2^(k-1)] (one sleep after
    each failed attempt, nothing after attempt [k]), has posted exactly
    [k + 1] requests, and returns that response. *)
Theorem post_with_retry_backoff :
  forall (remote : nat -> list string -> outcome) (data : list string)
         (max_retries : Z) (k : nat) (r : Response) (w : World),
    Z.of_nat k < max_retries ->
    (forall j, (j < k)%nat ->
               transient (remote (calls w + j)%nat data) = true) ->
    remote (calls w + k)%nat data = Responded r ->
    status_code r <> 503 ->
    post_with_retry remote data max_retries w =
    (Ok (Some r),
     {| calls := calls w + (k + 1);
        slept := slept w ++ map (fun j => 2 ^ Z.of_nat j) (seq 0 k) |},
     []).
Proof.
  intros remote data m k r w Hk Htr Hr Hs.
  unfold post_with_retry. rewrite (range1_split m k Hk).
  rewrite retry_loop_transient_prefix
    by (rewrite length_map, length_seq; assumption).
  rewrite length_map, length_seq, map_map.
  cbn [retry_loop].
  rewrite bind_silent
    with (a := Return r)
         (w1 := advance (advance w k (map (fun j => 2 ^ Z.of_nat j)
                                          (seq 0 k))) 1 []).
  - unfold ret, advance. simpl. rewrite app_nil_r.
    do 3 f_equal. lia.
  - apply attempt_once_final; assumption.
Qed.

(** Scenario 2 of the specification: 503 three times, then 200; the
    sleeps are 1, 2 and 4, the 200 response is returned and its record
    reaches [results_df]. *)
Lemma post_with_retry_backoff_witness :
  post_with_retry Scenario.remote_503x3_then_200 ["00012345678905"] 5
                  Scenario.world0 =
    (Ok (Some (Scenario.response_200 (Scenario.one_product "00012345678905"))),
     {| calls := 4; slept := [1; 2; 4] |}, [])
  /\ batch_loop Scenario.remote_503x3_then_200 Scenario.no_other_shape
                [["00012345678905"]] [] Scenario.world0 =
     (Ok [Scenario.table_of ["00012345678905"]],
      {| calls := 4; slept := [1; 2; 4] |}, []).
Proof.
  split.
  - apply (post_with_retry_backoff Scenario.remote_503x3_then_200
             ["00012345678905"] 5 3
             (Scenario.response_200 (Scenario.one_product "00012345678905"))
             Scenario.world0).
    + lia.
    + intros j Hj. destruct j as [|[|[|j]]]; try reflexivity. lia.
    + reflexivity.
    + simpl. lia.
  - vm_compute. reflexivity.
Defined.

(** ** The batch loop *)

Section Batches.
Variable remote : nat -> list string -> outcome.
Variable normalize_other : json -> result DataFrame.

Lemma batch_loop_step (chunk : list string) (rest : list (list string))
  (results_df results_df' : list DataFrame) (response : option Response)
  (w w1 : World) :
  post_with_retry remote chunk 5 w = (Ok response, w1, []) ->
  absorb_response normalize_other response results_df = Ok results_df' ->
  batch_loop remote normalize_other (chunk :: rest) results_df w =
  batch_loop remote normalize_other rest results_df' w1.
Proof.
  intros Hp Ha. cbn [batch_loop].
  rewrite bind_silent with (a := response) (w1 := w1) by exact Hp.
  rewrite bind_silent with (a := results_df') (w1 := w1).
  - reflexivity.
  - unfold lift. now rewrite Ha.
Qed.


Lemma post_with_retry_exhausted (chunk : list string) (w : World) :
  (forall j, (j < 5)%nat -> transient (remote (calls w + j) chunk) = true) ->
  post_with_retry remote chunk 5 w =
  (Ok None, advance w 5 [1; 2; 4; 8; 16], []).
Proof.
  intros H. unfold post_with_retry.
  change (Py.range1 5) with [0; 1; 2; 3; 4].
  now rewrite retry_loop_exhausted by exact H.
Qed.

End Batches.

(** C3 (exhausted retries).  If all five attempts for a batch end in
    status 503 or in a request exception, [post_with_retry] returns [None]
    without raising, after the sleeps 1, 2, 4, 8 and 16, and the batch loop
    goes on with the next batch with [results_df] as it was: the batch
    contributes no record and the run does not fail. *)
Theorem exhausted_batch_contributes_nothing :
  forall (remote : nat -> list string -> outcome)
         (normalize_other : json -> result DataFrame)
         (chunk : list string) (rest : list (list string))
         (results_df : list DataFrame) (w : World),
    (forall j, (j < 5)%nat ->
               transient (remote (calls w + j)%nat chunk) = true) ->
    post_with_retry remote chunk 5 w =
      (Ok None, advance w 5 [1; 2; 4; 8; 16], [])
    /\ absorb_response normalize_other None results_df = Ok results_df
    /\ batch_loop remote normalize_other (chunk :: rest) results_df w =
       batch_loop remote normalize_other rest results_df
                  (advance w 5 [1; 2; 4; 8; 16]).
Proof.
  intros remote other chunk rest results_df w H.
  pose proof (post_with_retry_exhausted remote chunk w H) as Hp.
  split; [exact Hp|]. split; [reflexivity|].
  apply batch_loop_step with (response := None); [exact Hp|reflexivity].
Qed.

(** Every request times out: the first of two batches takes five
    requests, adds no record and raises nothing. *)
Lemma exhausted_batch_contributes_nothing_witness :
  post_with_retry Scenario.remote_down ["1"] 5 Scenario.world0 =
    (Ok None, advance Scenario.world0 5 [1; 2; 4; 8; 16], [])
  /\ absorb_response Scenario.no_other_shape None [] = Ok []
  /\ batch_loop Scenario.remote_down Scenario.no_other_shape
                [["1"]; ["2"]] [] Scenario.world0 =
     batch_loop Scenario.remote_down Scenario.no_other_shape
                [["2"]] [] (advance Scenario.world0 5 [1; 2; 4; 8; 16]).
Proof.
  apply (exhausted_batch_contributes_nothing Scenario.remote_down
           Scenario.no_other_shape ["1"] [["2"]] [] Scenario.world0).
  intros j Hj. reflexivity.
Defined.

(** ** Frames and the fixed schema *)

Lemma in_labels_In (c : string) (cols : list string) :
  in_labels c cols = true <-> In c cols.
Proof.
  unfold in_labels. rewrite existsb_exists. split.
  - intros [x [Hx He]]. apply String.eqb_eq in He. now subst.
  - intros H. exists c. split; [assumption|apply String.eqb_refl].
Qed.

Lemma in_labels_app (c : string) (l1 l2 : list string) :
  in_labels c (l1 ++ l2) = in_labels c l1 || in_labels c l2.
Proof.
  unfold in_labels. apply existsb_app.
Qed.

Lemma lookup_cell_map (f : string -> cell) (cols : list string) (c : string) :
  lookup_cell cols (map f cols) c =
  if in_labels c cols then Some (f c) else None.
Proof.
  induction cols as [|a cols IH]; simpl; [reflexivity|].
  destruct (String.eqb_spec c a) as [->|Hne]; simpl; [reflexivity|exact IH].
Qed.

Lemma lookup_cell_app (cols1 cols2 : list string) (r1 r2 : list cell)
  (c : string) :
  length r1 = length cols1 ->
  lookup_cell (cols1 ++ cols2) (r1 ++ r2) c =
  if in_labels c cols1 then lookup_cell cols1 r1 c else lookup_cell cols2 r2 c.
Proof.
  revert r1. induction cols1 as [|a cols1 IH]; intros r1 Hlen.
  - destruct r1; [reflexivity|discriminate].
  - destruct r1 as [|x r1]; [discriminate|]. simpl.
    destruct (String.eqb_spec c a); simpl; [reflexivity|].
    apply IH. simpl in Hlen. lia.
Qed.

Lemma fill_missing_columns_spec (cols : list string) (df : DataFrame) :
  let df' :=
    fold_left (fun df col =>
                 if negb (in_labels col (columns df))
                 then Pd.setitem df col CNA else df) cols df in
  exists added : list string,
    columns df' = columns df ++ added
    /\ rows df' = map (fun r => r ++ map (fun _ => CNA) added) (rows df)
    /\ (forall c, in_labels c (columns df ++ added) =
                  in_labels c (columns df) || in_labels c cols).
Proof.
  revert df. induction cols as [|col cols IH]; intros df; simpl.
  - exists []. repeat split.
    + now rewrite app_nil_r.
    + rewrite <- (map_id (rows df)) at 1. apply map_ext.
      intros r. simpl. now rewrite app_nil_r.
    + intros c. now rewrite app_nil_r, orb_false_r.
  - destruct (in_labels col (columns df)) eqn:Hin; simpl.
    + destruct (IH df) as [added [Hc [Hr Hl]]]. exists added.
      repeat split; [exact Hc|exact Hr|].
      intros c. rewrite Hl.
      destruct (String.eqb_spec c col) as [->|Hne]; simpl.
      * now rewrite Hin.
      * reflexivity.
    + replace (Pd.setitem df col CNA)
        with {| columns := columns df ++ [col];
                rows := map (fun r => r ++ [CNA]) (rows df) |}
        by (unfold Pd.setitem; now rewrite Hin).
      destruct (IH {| columns := columns df ++ [col];
                      rows := map (fun r => r ++ [CNA]) (rows df) |})
        as [added [Hc [Hr Hl]]].
      cbn [columns rows] in Hc, Hr, Hl. exists (col :: added). repeat split.
      * rewrite Hc, <- app_assoc. reflexivity.
      * rewrite Hr, map_map. apply map_ext. intros r.
        now rewrite <- app_assoc.
      * intros c. specialize (Hl c).
        rewrite <- app_assoc in Hl. simpl in Hl. rewrite Hl.
        rewrite in_labels_app. simpl. now rewrite orb_false_r, orb_assoc.
Qed.

Section Normalizer.
Variable normalize_other : json -> result DataFrame.

(** What lines 110-113 make of any frame. *)
Lemma project_frame (df : DataFrame) :
  exists added : list string,
    Pd.getitem_list (fill_missing_columns df) COLUMNS_OF_INTEREST =
    Ok {| columns := COLUMNS_OF_INTEREST;
          rows :=
            map (fun r =>
                   map (fun c =>
                          cell_or_nan
                            (lookup_cell (columns df ++ added)
                               (r ++ map (fun _ => CNA) added) c))
                       COLUMNS_OF_INTEREST)
                (rows df) |}
    /\ (forall c, in_labels c (columns df ++ added) =
                  in_labels c (columns df) || in_labels c COLUMNS_OF_INTEREST).
Proof.
  destruct (fill_missing_columns_spec COLUMNS_OF_INTEREST df)
    as [added [Hc [Hr Hl]]].
  fold (fill_missing_columns df) in Hc, Hr.
  exists added. split; [|exact Hl].
  unfold Pd.getitem_list. rewrite Hc, Hr.
  replace (forallb (fun c => in_labels c (columns df ++ added))
                   COLUMNS_OF_INTEREST) with true.
  - rewrite map_map. reflexivity.
  - symmetry. apply forallb_forall. intros c Hc'. rewrite Hl.
    apply in_labels_In in Hc'. rewrite Hc'. apply orb_true_r.
Qed.

Lemma normalize_products_schema (products : json) (t : DataFrame) :
  normalize_products normalize_other products = Ok t -> schema_ok t.
Proof.
  unfold normalize_products.
  destruct (json_normalize normalize_other products) as [df|e];
    [|discriminate].
  destruct (project_frame df) as [added [Hg _]]. rewrite Hg.
  intros [= <-]. split; [reflexivity|]. simpl.
  rewrite Forall_map. apply Forall_forall. intros r _. reflexivity.
Qed.

Lemma Forall2_map_r {X Y} (P : X -> Y -> Prop) (g : X -> Y) (l : list X) :
  (forall x, In x l -> P x (g x)) -> Forall2 P l (map g l).
Proof.
  induction l as [|x l IH]; intros H; simpl; constructor.
  - apply H. now left.
  - apply IH. intros y Hy. apply H. now right.
Qed.

Lemma getitem_Some_key {V} (k : string) (d : Dict.t V) (v : V) :
  Dict.getitem k d = Some v -> In k (Dict.keys d).
Proof.
  induction d as [|[k' v'] d IH]; simpl; [discriminate|].
  destruct (String.eqb_spec k k') as [->|Hne]; intros H.
  - now left.
  - right. now apply IH.
Qed.

Lemma union_labels_keeps (c : string) (new acc : list string) :
  in_labels c acc = true -> in_labels c (Pd.union_labels acc new) = true.
Proof.
  unfold Pd.union_labels. revert acc.
  induction new as [|x new IH]; intros acc H; simpl; [exact H|].
  apply IH. destruct (in_labels x acc); [exact H|].
  rewrite in_labels_app, H. reflexivity.
Qed.

Lemma union_labels_adds (c : string) (new acc : list string) :
  In c new -> in_labels c (Pd.union_labels acc new) = true.
Proof.
  revert acc. induction new as [|x new IH]; intros acc H; [contradiction|].
  destruct H as [->|H].
  - unfold Pd.union_labels. simpl.
    apply (union_labels_keeps c new). destruct (in_labels c acc) eqn:E.
    + exact E.
    + rewrite in_labels_app. simpl. rewrite String.eqb_refl.
      apply orb_true_r.
  - unfold Pd.union_labels. simpl. now apply IH.
Qed.

Lemma frame_labels_cover (recs : list (Dict.t json)) (acc : list string)
  (rec : Dict.t json) (c : string) :
  In rec recs -> In c (Dict.keys rec) ->
  in_labels c
    (fold_left (fun a (r : Dict.t json) => Pd.union_labels a (Dict.keys r)) recs acc) = true.
Proof.
  assert (Keep : forall l a,
             in_labels c a = true ->
             in_labels c
               (fold_left (fun a (r : Dict.t json) => Pd.union_labels a (Dict.keys r)) l a)
             = true).
  { induction l as [|r l IHl]; intros a Ha; simpl; [exact Ha|].
    apply IHl. now apply union_labels_keeps. }
  revert acc. induction recs as [|r recs IH]; intros acc Hin Hc;
    [contradiction|].
  simpl. destruct Hin as [->|Hin].
  - apply Keep. now apply union_labels_adds.
  - now apply IH.
Qed.

(** A list of JSON objects: one record per entry, each cell the entry's
    value for the label or a missing-value marker. *)
Lemma normalize_list_of_dicts (items : list json)
  (recs : list (list (string * json))) :
  Pd.all_objects items = Some recs ->
  exists t : DataFrame,
    normalize_products normalize_other (JArr items) = Ok t
    /\ Forall2
         (fun ms row =>
            Forall2 (cell_matches (Pd.normalise_json_ordered ms))
                    COLUMNS_OF_INTEREST row)
         recs (rows t).
Proof.
  intros Hobj. unfold normalize_products, json_normalize. rewrite Hobj.
  destruct (project_frame
              (Pd.frame_of_records (map Pd.normalise_json_ordered recs)))
    as [added [Hg Hl]].
  rewrite Hg. eexists. split; [reflexivity|].
  cbn [rows columns Pd.frame_of_records] in *.
  set (cols := fold_left (fun a (r : Dict.t json) => Pd.union_labels a (Dict.keys r))
                         (map Pd.normalise_json_ordered recs) []) in *.
  rewrite !map_map. apply Forall2_map_r. intros ms Hms.
  apply Forall2_map_r. intros c Hc.
  rewrite lookup_cell_app by apply length_map.
  rewrite !lookup_cell_map. unfold cell_matches.
  destruct (in_labels c cols) eqn:Ecol.
  - simpl. now destruct (Dict.getitem c (Pd.normalise_json_ordered ms)).
  - specialize (Hl c). rewrite in_labels_app, Ecol in Hl. cbn [orb] in Hl.
    apply in_labels_In in Hc. rewrite Hc in Hl. rewrite Hl. simpl.
    destruct (Dict.getitem c (Pd.normalise_json_ordered ms)) eqn:Eg;
      [|reflexivity].
    apply getitem_Some_key in Eg.
    assert (in_labels c cols = true) as Habs.
    { apply frame_labels_cover with (rec := Pd.normalise_json_ordered ms);
        [|exact Eg].
      apply in_map. exact Hms. }
    congruence.
Qed.

End Normalizer.

(** ** Laws of the effect monad *)

Lemma bind_assoc {A B C} (m : M A) (f : A -> M B) (g : B -> M C) (w : World) :
  bind (bind m f) g w = bind m (fun a => bind (f a) g) w.
Proof.
  unfold bind. destruct (m w) as [[[a|e] w1] e1]; [|reflexivity].
  destruct (f a w1) as [[[b|e] w2] e2]; [|reflexivity].
  destruct (g b w2) as [[r w3] e3]. now rewrite app_assoc.
Qed.

Lemma bind_ext {A B} (m : M A) (f g : A -> M B) (w : World) :
  (forall a w', f a w' = g a w') -> bind m f w = bind m g w.
Proof.
  intros H. unfold bind. destruct (m w) as [[[a|e] w1] e1]; [|reflexivity].
  now rewrite H.
Qed.

Lemma bind_ext_l {A B} (m m' : M A) (f : A -> M B) (w : World) :
  m w = m' w -> bind m f w = bind m' f w.
Proof.
  intros H. unfold bind. now rewrite H.
Qed.

Lemma bind_ret_l {A B} (a : A) (f : A -> M B) (w : World) :
  bind (ret a) f w = f a w.
Proof.
  apply bind_silent. reflexivity.
Qed.

Lemma bind_inv_ok {A B} (m : M A) (f : A -> M B) w b w2 e :
  bind m f w = (Ok b, w2, e) ->
  exists a w1 e1 e2,
    m w = (Ok a, w1, e1) /\ f a w1 = (Ok b, w2, e2) /\ e = e1 ++ e2.
Proof.
  unfold bind. destruct (m w) as [[[a|x] w1] e1]; [|discriminate].
  destruct (f a w1) as [[r w3] e2] eqn:Ef. intros [= -> -> <-].
  exists a, w1, e1, e2. auto.
Qed.

(** ** The file loop and the run, against the aggregators of the
    specification *)

Section Run.
Variable remote : nat -> list string -> outcome.
Variable normalize_other : json -> result DataFrame.

Abbreviation source_table' := (source_table remote normalize_other).
Abbreviation collected' := (collected remote normalize_other).
Abbreviation process_file' := (process_file remote normalize_other).
Abbreviation file_loop' := (file_loop remote normalize_other).

(** The body of the file loop is the File-Level Aggregator followed by
    the two appends of lines 121-122. *)
Lemma process_file_factor (f : UploadedFile) (st : RunState) (w : World) :
  process_file' f st w =
  (o <- source_table' f ;; ret (collect (name f) o st)) w.
Proof.
  unfold process_file, source_table.
  destruct (pd_read f) as [df|e].
  2:{ rewrite bind_assoc. apply bind_ext. intros. now rewrite bind_ret_l. }
  rewrite bind_assoc. apply bind_ext. intros cols w0.
  destruct (Dict.getitem "gtin" cols) as [gtin_col|].
  2:{ rewrite bind_assoc. apply bind_ext. intros. now rewrite bind_ret_l. }
  rewrite bind_assoc. apply bind_ext. intros gtins w1.
  destruct gtins as [|g gtins].
  { rewrite bind_assoc. apply bind_ext. intros. now rewrite bind_ret_l. }
  rewrite bind_assoc. apply bind_ext. intros chunks w2.
  rewrite bind_assoc. apply bind_ext. intros results_df w3.
  destruct results_df as [|t results_df].
  { rewrite bind_assoc. apply bind_ext. intros. now rewrite bind_ret_l. }
  rewrite bind_assoc. apply bind_ext. intros final_result w4.
  now rewrite bind_ret_l.
Qed.

(** The file loop adds the collected tables, in order, to both views. *)
Lemma file_loop_collected (files : list UploadedFile) (st : RunState)
  (w : World) :
  file_loop' files st w =
  (l <- collected' files ;; ret (fold_left add_table l st)) w.
Proof.
  revert st w. induction files as [|f files IH]; intros st w.
  - cbn [file_loop collected]. now rewrite bind_ret_l.
  - cbn [file_loop collected].
    rewrite (bind_ext _ _ (fun st' => l <- collected' files ;;
                                      ret (fold_left add_table l st')))
      by (intros; apply IH).
    rewrite (bind_ext_l _ _ _ w (process_file_factor f st w)).
    rewrite !bind_assoc. apply bind_ext. intros o w1.
    rewrite bind_ret_l, bind_assoc. apply bind_ext. intros l w2.
    rewrite bind_ret_l. now destruct o.
Qed.

Lemma fold_add_table_all_data (l : list (string * DataFrame)) (st : RunState) :
  all_data (fold_left add_table l st) = all_data st ++ map snd l.
Proof.
  revert st. induction l as [|x l IH]; intros st; simpl.
  - now rewrite app_nil_r.
  - rewrite IH. simpl. now rewrite <- app_assoc.
Qed.

Lemma fold_add_table_individual_results (l : list (string * DataFrame))
  (st : RunState) :
  individual_results (fold_left add_table l st) =
  fold_left (fun d (e : string * DataFrame) => Dict.setitem (fst e) (snd e) d)
            l (individual_results st).
Proof.
  revert st. induction l as [|x l IH]; intros st; simpl; [reflexivity|].
  now rewrite IH.
Qed.

Lemma setitem_values_Forall {V} (P : V -> Prop) (k : string) (v : V)
  (d : Dict.t V) :
  P v -> Forall P (Dict.values d) -> Forall P (Dict.values (Dict.setitem k v d)).
Proof.
  intros Hv. unfold Dict.values.
  induction d as [|[k' v'] d IH]; simpl; intros H.
  - constructor; [exact Hv|constructor].
  - inversion H as [|? ? Hv' Hd]; subst.
    destruct (String.eqb k k'); simpl; constructor; auto.
Qed.

Lemma fold_add_table_individual (P : DataFrame -> Prop)
  (l : list (string * DataFrame)) (st : RunState) :
  Forall P (Dict.values (individual_results st)) ->
  Forall P (map snd l) ->
  Forall P (Dict.values (individual_results (fold_left add_table l st))).
Proof.
  revert st. induction l as [|x l IH]; intros st Hst Hl; simpl; [exact Hst|].
  inversion Hl as [|? ? Hx Hl']; subst.
  apply IH; [|exact Hl']. simpl. now apply setitem_values_Forall.
Qed.

(** Re-aligning a row of the fixed schema on the fixed schema changes
    nothing. *)
Lemma realign_row (r : list cell) :
  length r = 5%nat ->
  map (fun c => cell_or_nan (lookup_cell COLUMNS_OF_INTEREST r c))
      COLUMNS_OF_INTEREST = r.
Proof.
  intros H.
  destruct r as [|c1 [|c2 [|c3 [|c4 [|c5 [|c6 r]]]]]]; try discriminate.
  reflexivity.
Qed.

Lemma concat_labels (frames : list DataFrame) :
  Forall schema_ok frames ->
  fold_left (fun a (f : DataFrame) => Pd.union_labels a (columns f)) frames
            COLUMNS_OF_INTEREST = COLUMNS_OF_INTEREST.
Proof.
  induction 1 as [|f frames [Hc _] _ IH]; simpl; [reflexivity|].
  rewrite Hc. exact IH.
Qed.

Lemma concat_rows (cols : list string) (frames : list DataFrame) :
  cols = COLUMNS_OF_INTEREST ->
  Forall schema_ok frames ->
  flat_map (fun f : DataFrame =>
              map (fun r =>
                     map (fun c => cell_or_nan (lookup_cell (columns f) r c))
                         cols)
                  (rows f)) frames =
  flat_map rows frames.
Proof.
  intros ->. induction 1 as [|f frames [Hc Hr] _ IH]; [reflexivity|].
  cbn [flat_map]. rewrite IH, Hc. f_equal.
  rewrite <- (map_id (rows f)) at 2. apply map_ext_in. intros r Hin.
  apply realign_row. rewrite Forall_forall in Hr. now apply Hr.
Qed.

(** [pd.concat] of tables of the fixed schema: the rows, in order. *)
Lemma concat_schema (frames : list DataFrame) :
  frames <> [] ->
  Forall schema_ok frames ->
  Pd.concat frames =
  Ok {| columns := COLUMNS_OF_INTEREST; rows := flat_map rows frames |}.
Proof.
  intros Hne Hall. destruct frames as [|f frames]; [now elim Hne|].
  unfold Pd.concat.
  assert (Hcols : fold_left (fun a (f : DataFrame) =>
                               Pd.union_labels a (columns f))
                            (f :: frames) [] = COLUMNS_OF_INTEREST).
  { inversion Hall as [|? ? [Hc _] Hrest]; subst. simpl. rewrite Hc.
    change (Pd.union_labels [] COLUMNS_OF_INTEREST) with COLUMNS_OF_INTEREST.
    now apply concat_labels. }
  rewrite Hcols. now rewrite concat_rows.
Qed.

Lemma schema_ok_concat (frames : list DataFrame) :
  Forall schema_ok frames ->
  schema_ok {| columns := COLUMNS_OF_INTEREST; rows := flat_map rows frames |}.
Proof.
  intros H. split; [reflexivity|]. simpl.
  induction H as [|f frames [_ Hr] _ IH]; simpl; [constructor|].
  apply Forall_app. split; assumption.
Qed.

Lemma absorb_response_schema (response : option Response)
  (results_df results_df' : list DataFrame) :
  absorb_response normalize_other response results_df = Ok results_df' ->
  Forall schema_ok results_df -> Forall schema_ok results_df'.
Proof.
  unfold absorb_response. intros H Hall.
  destruct response as [r|]; [|now injection H as <-].
  destruct (response_ok r && (status_code r =? 200));
    [|now injection H as <-].
  destruct (response_json r) as [data|]; [|discriminate].
  destruct (py_in "products" data) as [[|]|]; try discriminate;
    [|now injection H as <-].
  destruct (py_getitem data "products") as [products|]; [|discriminate].
  destruct (normalize_products normalize_other products) as [t|] eqn:Et;
    [|discriminate].
  injection H as <-. apply Forall_app. split; [exact Hall|].
  constructor; [|constructor].
  now apply normalize_products_schema with (1 := Et).
Qed.

Lemma lift_inv {A} (r : result A) (w : World) a w1 e1 :
  lift r w = (Ok a, w1, e1) -> r = Ok a /\ w1 = w /\ e1 = [].
Proof.
  unfold lift. intros [= -> <- <-]. auto.
Qed.

Lemma batch_loop_schema (chunks : list (list string))
  (results_df results_df' : list DataFrame) (w w' : World) (e : list event) :
  batch_loop remote normalize_other chunks results_df w
  = (Ok results_df', w', e) ->
  Forall schema_ok results_df -> Forall schema_ok results_df'.
Proof.
  revert results_df w e.
  induction chunks as [|chunk chunks IH]; intros acc w e H Hall.
  - injection H as <- _ _. exact Hall.
  - cbn [batch_loop] in H.
    apply bind_inv_ok in H. destruct H as (resp & w1 & e1 & e2 & _ & H & _).
    apply bind_inv_ok in H. destruct H as (acc' & w2 & e3 & e4 & Ha & H & _).
    apply lift_inv in Ha. destruct Ha as [Ha _].
    apply (IH _ _ _ H). now apply absorb_response_schema with (1 := Ha).
Qed.

(** Every table the File-Level Aggregator yields has the fixed schema. *)
Lemma source_table_schema (f : UploadedFile) (w w' : World) (t : DataFrame)
  (e : list event) :
  source_table' f w = (Ok (Some t), w', e) -> schema_ok t.
Proof.
  unfold source_table.
  destruct (pd_read f) as [df|x]; [|discriminate].
  intros H. apply bind_inv_ok in H.
  destruct H as (cols & w0 & e0 & e0' & _ & H & _).
  destruct (Dict.getitem "gtin" cols); [|discriminate].
  apply bind_inv_ok in H.
  destruct H as (gtins & w1 & e1 & e2 & _ & H & _).
  destruct gtins as [|g gtins]; [discriminate|].
  apply bind_inv_ok in H. destruct H as (chunks & w2 & e3 & e4 & _ & H & _).
  apply bind_inv_ok in H. destruct H as (res & w3 & e5 & e6 & Hb & H & _).
  apply batch_loop_schema in Hb; [|constructor].
  destruct res as [|t0 res]; [discriminate|].
  apply bind_inv_ok in H. destruct H as (fr & w4 & e7 & e8 & Hc & H & _).
  apply lift_inv in Hc. destruct Hc as [Hc _].
  rewrite concat_schema in Hc by (discriminate || assumption).
  injection Hc as <-. injection H as <- _ _.
  exact (schema_ok_concat (t0 :: res) Hb).
Qed.

Lemma collected_schema (files : list UploadedFile) (w w' : World)
  (l : list (string * DataFrame)) (e : list event) :
  collected' files w = (Ok l, w', e) -> Forall schema_ok (map snd l).
Proof.
  revert w w' l e. induction files as [|f files IH]; intros w w' l e H.
  - injection H as <- _ _. constructor.
  - cbn [collected] in H.
    apply bind_inv_ok in H. destruct H as (o & w1 & e1 & e2 & Ho & H & _).
    apply bind_inv_ok in H. destruct H as (l' & w2 & e3 & e4 & Hl & H & _).
    injection H as <- _ _. apply IH in Hl.
    destruct o as [t|]; [|exact Hl].
    simpl. constructor; [|exact Hl].
    now apply source_table_schema with (1 := Ho).
Qed.

Abbreviation main' := (main remote normalize_other).

(** The state after the file loop holds the collected tables. *)
Lemma file_loop_inv (files : list UploadedFile) (st : RunState)
  (w w' : World) (evs : list event) :
  file_loop' files initial_state w = (Ok st, w', evs) ->
  exists l : list (string * DataFrame),
    collected' files w = (Ok l, w', evs)
    /\ st = fold_left add_table l initial_state
    /\ all_data st = map snd l
    /\ Forall schema_ok (all_data st)
    /\ Forall schema_ok (Dict.values (individual_results st)).
Proof.
  rewrite file_loop_collected. intros H.
  apply bind_inv_ok in H. destruct H as (l & w1 & e1 & e2 & Hl & H & He).
  injection H as <- <- <-. rewrite app_nil_r in He. subst e1.
  exists l. pose proof (collected_schema _ _ _ _ _ Hl) as Hs.
  rewrite fold_add_table_all_data. simpl.
  repeat split; try assumption.
  apply fold_add_table_individual; [constructor|exact Hs].
Qed.

(** What [main] does once the file loop is over. *)
Lemma main_outcome (files : list UploadedFile) (ss : Session) (st : RunState)
  (w w' : World) (evs : list event) :
  files <> [] ->
  file_loop' files initial_state w = (Ok st, w', evs) ->
  main' files ss w =
  match all_data st with
  | [] => (Ok ss, w', evs ++ [ErrorNoData])
  | _ :: _ =>
      (Ok {| user_name := user_name ss;
             final_df := Some {| columns := COLUMNS_OF_INTEREST;
                                 rows := flat_map rows (all_data st) |};
             ss_individual_results := Some (individual_results st) |},
       w',
       evs ++ [UsageLogged (user_name ss) (Z.of_nat (length files));
               SuccessAll])
  end.
Proof.
  intros Hne H. destruct files as [|f files]; [now elim Hne|].
  unfold main. rewrite (bind_ok _ _ _ _ _ _ H).
  destruct (file_loop_inv _ _ _ _ _ H) as (l & _ & _ & _ & Hs & _).
  destruct (all_data st) as [|t ts] eqn:Ead; [reflexivity|].
  unfold bind, lift. rewrite concat_schema by (discriminate || assumption).
  reflexivity.
Qed.

Lemma main_raise (files : list UploadedFile) (ss : Session) (e : exn)
  (w w' : World) (evs : list event) :
  file_loop' files initial_state w = (Raise e, w', evs) ->
  main' files ss w = (Raise e, w', evs).
Proof.
  intros H. destruct files as [|f files]; [discriminate|].
  unfold main. now apply bind_raise.
Qed.

Lemma main_session_ok (files : list UploadedFile) (ss ss' : Session)
  (w w' : World) (evs : list event) :
  session_ok ss ->
  main' files ss w = (Ok ss', w', evs) ->
  session_ok ss'.
Proof.
  intros Hss H. destruct files as [|f files].
  { injection H as <- _ _. exact Hss. }
  destruct (file_loop' (f :: files) initial_state w) as [[[st|e] w1] e1] eqn:El.
  2:{ rewrite (main_raise _ _ _ _ _ _ El) in H. discriminate. }
  assert (Hne : f :: files <> []) by discriminate.
  rewrite (main_outcome _ ss _ _ _ _ Hne El) in H.
  destruct (file_loop_inv _ _ _ _ _ El) as (l & _ & _ & _ & Hs & Hi).
  destruct (all_data st) as [|t ts] eqn:Ead.
  - injection H as <- _ _. exact Hss.
  - injection H as <- _ _. split; simpl.
    + intros t' [= <-]. exact (schema_ok_concat (t :: ts) Hs).
    + intros d [= <-]. exact Hi.
Qed.

End Run.

(** C4 (fixed schema).  Whatever [pd.json_normalize] makes of a payload,
    the table lines 110-113 build from it has exactly the five labels of
    [COLUMNS_OF_INTEREST], in that order, and five cells in every record;
    for a list of JSON objects there is one record per entry and each cell
    is the entry's value for the label, or a missing-value marker when the
    entry has none; and after a run every table of the session (the combined
    one and the one of each source) has that schema. *)
Theorem fixed_schema_everywhere :
  forall (remote : nat -> list string -> outcome)
         (normalize_other : json -> result DataFrame),
    (forall products t,
        normalize_products normalize_other products = Ok t -> schema_ok t)
    /\ (forall items recs,
           Pd.all_objects items = Some recs ->
           exists t,
             normalize_products normalize_other (JArr items) = Ok t
             /\ schema_ok t
             /\ Forall2
                  (fun ms row =>
                     Forall2 (cell_matches (Pd.normalise_json_ordered ms))
                             COLUMNS_OF_INTEREST row)
                  recs (rows t))
    /\ (forall files ss w ss' w' evs,
           session_ok ss ->
           main remote normalize_other files ss w = (Ok ss', w', evs) ->
           session_ok ss').
Proof.
  intros remote other. split; [|split].
  - apply normalize_products_schema.
  - intros items recs H.
    destruct (normalize_list_of_dicts other items recs H) as [t [Ht Hc]].
    exists t. split; [exact Ht|]. split; [|exact Hc].
    now apply normalize_products_schema with (1 := Ht).
  - intros files ss w ss' w' evs. apply main_session_ok.
Qed.

(** C5 (run finalisation).  For one or more input sources, once the file
    loop is over: [all_data] holds the tables of the sources that were not
    skipped, in processing order, and [individual_results] holds the same
    tables under the source names; if [all_data] is not empty the session
    receives the combined table, whose rows are the rows of these tables in
    that order, together with [individual_results], the usage line and the
    success message; if it is empty the run emits "No data was processed."
    and leaves the session as it was. *)
Theorem run_aggregator_finalization :
  forall (remote : nat -> list string -> outcome)
         (normalize_other : json -> result DataFrame)
         (files : list UploadedFile) (ss : Session) (st : RunState)
         (w w' : World) (evs : list event),
    files <> [] ->
    file_loop remote normalize_other files initial_state w = (Ok st, w', evs) ->
    (exists l,
        collected remote normalize_other files w = (Ok l, w', evs)
        /\ all_data st = map snd l
        /\ individual_results st =
           fold_left (fun d e => Dict.setitem (fst e) (snd e) d) l [])
    /\ (all_data st <> [] ->
        main remote normalize_other files ss w =
        (Ok {| user_name := user_name ss;
               final_df := Some {| columns := COLUMNS_OF_INTEREST;
                                   rows := flat_map rows (all_data st) |};
               ss_individual_results := Some (individual_results st) |},
         w',
         evs ++ [UsageLogged (user_name ss) (Z.of_nat (length files));
                 SuccessAll]))
    /\ (all_data st = [] ->
        main remote normalize_other files ss w =
        (Ok ss, w', evs ++ [ErrorNoData])).
Proof.
  intros remote other files ss st w w' evs Hne H.
  pose proof (main_outcome remote other files ss st w w' evs Hne H) as Hm.
  destruct (file_loop_inv remote other _ _ _ _ _ H)
    as (l & Hl & Hst & Had & _ & _).
  split; [|split].
  - exists l. split; [exact Hl|]. split; [exact Had|].
    rewrite Hst. apply fold_add_table_individual_results.
  - intros Hd. destruct (all_data st); [now elim Hd|exact Hm].
  - intros Hd. rewrite Hd in Hm. exact Hm.
Qed.

(** One entry that carries only its [gtin], and the session after the
    run of scenario 1. *)
Lemma fixed_schema_everywhere_witness :
  (exists t,
      normalize_products Scenario.no_other_shape
        (JArr [JObj [("gtin", JStr "00012345678905")]]) = Ok t
      /\ schema_ok t
      /\ Forall2
           (fun ms row =>
              Forall2 (cell_matches (Pd.normalise_json_ordered ms))
                      COLUMNS_OF_INTEREST row)
           [[("gtin", JStr "00012345678905")]] (rows t))
  /\ session_ok Scenario.session_first.
Proof.
  destruct (fixed_schema_everywhere Scenario.remote_echo
              Scenario.no_other_shape) as [_ [Hentries Hrun]].
  split.
  - apply Hentries. reflexivity.
  - apply (Hrun [Scenario.file_gtin] Scenario.session0 Scenario.world0
                Scenario.session_first {| calls := 1; slept := [] |}
                [UsageLogged "bryon" 1; SuccessAll]).
    + split; intros x Hx; discriminate Hx.
    + vm_compute. reflexivity.
Defined.

(** Scenario 1 (one source, one table) and scenario 3 alone (the only
    source is skipped). *)
Lemma run_aggregator_finalization_witness :
  main Scenario.remote_echo Scenario.no_other_shape [Scenario.file_gtin]
       Scenario.session0 Scenario.world0 =
    (Ok Scenario.session_first, {| calls := 1; slept := [] |},
     [UsageLogged "bryon" 1; SuccessAll])
  /\ main Scenario.remote_echo Scenario.no_other_shape [Scenario.file_sku]
          Scenario.session0 Scenario.world0 =
     (Ok Scenario.session0, Scenario.world0,
      [WarnNoColumn "skus.csv"; ErrorNoData]).
Proof.
  split.
  - destruct (run_aggregator_finalization Scenario.remote_echo
                Scenario.no_other_shape [Scenario.file_gtin] Scenario.session0
                {| all_data :=
                     [Scenario.table_of ["00012345678905"; "00098765432109"]];
                   individual_results :=
                     [("first.csv",
                       Scenario.table_of
                         ["00012345678905"; "00098765432109"])] |}
                Scenario.world0 {| calls := 1; slept := [] |} [])
      as [_ [Hfin _]].
    + discriminate.
    + vm_compute. reflexivity.
    + apply Hfin. discriminate.
  - destruct (run_aggregator_finalization Scenario.remote_echo
                Scenario.no_other_shape [Scenario.file_sku] Scenario.session0
                initial_state Scenario.world0 Scenario.world0
                [WarnNoColumn "skus.csv"])
      as [_ [_ Hnone]].
    + discriminate.
    + vm_compute. reflexivity.
    + apply Hnone. reflexivity.
Defined.

(** ** The two views of the run *)

Lemma setitem_fresh {V} (k : string) (v : V) (d : Dict.t V) :
  ~ In k (Dict.keys d) -> Dict.setitem k v d = d ++ [(k, v)].
Proof.
  induction d as [|[k' v'] d IH]; simpl; intros H; [reflexivity|].
  destruct (String.eqb_spec k k') as [->|Hne].
  - elim H. now left.
  - rewrite IH; [reflexivity|]. intros Hin. apply H. now right.
Qed.

Lemma fold_setitem_fresh (l : list (string * DataFrame))
  (d : Dict.t DataFrame) :
  NoDup (Dict.keys d ++ map fst l) ->
  fold_left (fun d (e : string * DataFrame) => Dict.setitem (fst e) (snd e) d)
            l d = d ++ l.
Proof.
  revert d. induction l as [|[k t] l IH]; intros d H; simpl.
  - now rewrite app_nil_r.
  - simpl in H. pose proof (NoDup_remove_2 _ _ _ H) as Hk.
    rewrite setitem_fresh by (intros Hin; apply Hk, in_or_app; now left).
    rewrite IH.
    + now rewrite <- app_assoc.
    + unfold Dict.keys. rewrite map_app. simpl.
      rewrite <- app_assoc. simpl. exact H.
Qed.

Section Views.
Variable remote : nat -> list string -> outcome.
Variable normalize_other : json -> result DataFrame.

Lemma collected_names (files : list UploadedFile) (w w' : World)
  (l : list (string * DataFrame)) (e : list event) :
  collected remote normalize_other files w = (Ok l, w', e) ->
  (forall x, In x (map fst l) -> In x (map name files))
  /\ (NoDup (map name files) -> NoDup (map fst l)).
Proof.
  revert w w' l e. induction files as [|f files IH]; intros w w' l e H.
  - injection H as <- _ _. split; [intros x []|constructor].
  - cbn [collected] in H.
    apply bind_inv_ok in H. destruct H as (o & w1 & e1 & e2 & _ & H & _).
    apply bind_inv_ok in H. destruct H as (l' & w2 & e3 & e4 & Hl & H & _).
    injection H as <- _ _. destruct (IH _ _ _ _ Hl) as [Hin Hnd].
    destruct o as [t|]; simpl.
    + split.
      * intros x [<-|Hx]; [now left|right; now apply Hin].
      * intros Hd. inversion Hd as [|? ? Hn Hd']; subst.
        constructor; [|now apply Hnd]. intros Hx. apply Hn. now apply Hin.
    + split.
      * intros x Hx. right. now apply Hin.
      * intros Hd. inversion Hd; subst. now apply Hnd.
Qed.

(** With pairwise distinct source names the two views hold the same
    tables in the same order, so the combined table is the source tables
    one after the other. *)
Lemma distinct_names_views_agree (files : list UploadedFile) (st : RunState)
  (w w' : World) (evs : list event) :
  NoDup (map name files) ->
  file_loop remote normalize_other files initial_state w = (Ok st, w', evs) ->
  Dict.values (individual_results st) = all_data st.
Proof.
  intros Hnd H.
  destruct (file_loop_inv remote normalize_other _ _ _ _ _ H)
    as (l & Hl & Hst & Had & _ & _).
  rewrite Had, Hst, fold_add_table_individual_results. simpl.
  rewrite fold_setitem_fresh; [reflexivity|]. simpl.
  now apply (collected_names _ _ _ _ _ Hl).
Qed.

End Views.

(** C6 (each combined record in exactly one source table), at two uploads
    that share the name [list.csv]: the combined table holds the records of
    both, [individual_results] holds one table only, the one of the second
    upload, and the record of the first upload is in no source table. *)
Theorem same_name_sources_drop_a_table :
  main Scenario.remote_echo Scenario.no_other_shape
       [Scenario.file_north; Scenario.file_south]
       Scenario.session0 Scenario.world0 =
    (Ok Scenario.session_same_name, {| calls := 2; slept := [] |},
     [UsageLogged "bryon" 2; SuccessAll])
  /\ In (Scenario.record_of "00012345678905")
        (rows (Scenario.table_of ["00012345678905"; "00098765432109"]))
  /\ ~ In (Scenario.record_of "00012345678905")
          (flat_map rows
             (Dict.values [("list.csv",
                            Scenario.table_of ["00098765432109"])])).
Proof.
  split; [vm_compute; reflexivity|]. split.
  - left. reflexivity.
  - simpl. intros [H|[]]. discriminate H.
Qed.

(** ** Skipped sources *)

Lemma getitem_setitem {V} (k k' : string) (v : V) (d : Dict.t V) :
  Dict.getitem k (Dict.setitem k' v d) =
  if String.eqb k k' then Some v else Dict.getitem k d.
Proof.
  induction d as [|[k0 v0] d IH]; simpl.
  - reflexivity.
  - destruct (String.eqb_spec k' k0) as [->|Hne]; simpl.
    + destruct (String.eqb k k0); reflexivity.
    + rewrite IH. destruct (String.eqb_spec k k0) as [->|Hne'].
      * destruct (String.eqb_spec k0 k'); [congruence|reflexivity].
      * reflexivity.
Qed.

(** Line 89, read backwards: what a lookup in [normalized_cols] finds. *)
Lemma normalized_lookup (k : string) (cols : list string) (d : Dict.t string) :
  let d' := fold_left (fun d col => Dict.setitem (Str.lower col) col d)
                      cols d in
  (forall c, Dict.getitem k d' = Some c ->
             (In c cols /\ Str.lower c = k) \/ Dict.getitem k d = Some c)
  /\ (Dict.getitem k d' = None <->
      Dict.getitem k d = None /\ forall c, In c cols -> Str.lower c <> k).
Proof.
  revert d. induction cols as [|col cols IH]; intros d; simpl.
  - split; [auto|]. split; [intros H; split; [exact H|intros c []]|tauto].
  - destruct (IH (Dict.setitem (Str.lower col) col d)) as [IH1 IH2].
    split.
    + intros c Hc. destruct (IH1 c Hc) as [[Hin Hl]|Hg].
      * left. split; [now right|exact Hl].
      * rewrite getitem_setitem in Hg.
        destruct (String.eqb_spec k (Str.lower col)) as [->|Hne].
        -- injection Hg as <-. left. split; [now left|reflexivity].
        -- now right.
    + rewrite IH2, getitem_setitem.
      destruct (String.eqb_spec k (Str.lower col)) as [->|Hne].
      * split; [intros [H _]; discriminate|].
        intros [_ H]. exfalso. apply (H col); [now left|reflexivity].
      * split.
        -- intros [Hd Hc]. split; [exact Hd|].
           intros c [<-|Hin]; [congruence|now apply Hc].
        -- intros [Hd Hc]. split; [exact Hd|].
           intros c Hin. apply Hc. now right.
Qed.

(** On str labels the comprehension of line 89 does not raise. *)
Lemma normalized_cols_str (names : list string) :
  normalized_cols (map LStr names) =
  Ok (fold_left (fun d col => Dict.setitem (Str.lower col) col d) names []).
Proof.
  unfold normalized_cols. generalize (@nil (string * string)).
  induction names as [|n names IH]; intros d; simpl; [reflexivity|].
  apply IH.
Qed.

Lemma bind_silent_cong {A B} (m1 m2 : M A) (k1 k2 : A -> M B) (w : World) :
  silent (m1 w) = silent (m2 w) ->
  (forall a w', silent (k1 a w') = silent (k2 a w')) ->
  silent (bind m1 k1 w) = silent (bind m2 k2 w).
Proof.
  unfold silent, bind. intros Hm Hk.
  destruct (m1 w) as [[r1 w1] e1], (m2 w) as [[r2 w2] e2]. simpl in Hm.
  injection Hm as <- <-. destruct r1 as [a|e]; [|reflexivity].
  specialize (Hk a w1).
  destruct (k1 a w1) as [[r3 w3] e3], (k2 a w1) as [[r4 w4] e4].
  simpl in *. exact Hk.
Qed.

Lemma silent_prepend {A} (evs : list event)
  (x : result A * World * list event) :
  silent (prepend_events evs x) = silent x.
Proof.
  now destruct x as [[r w] e].
Qed.

Section Skips.
Variable remote : nat -> list string -> outcome.
Variable normalize_other : json -> result DataFrame.

Abbreviation process_file'' := (process_file remote normalize_other).
Abbreviation file_loop'' := (file_loop remote normalize_other).
Abbreviation main'' := (main remote normalize_other).

Lemma process_file_no_column (f : UploadedFile)
  (df : list (label * list (option string))) (cols : Dict.t string)
  (st : RunState) (w : World) :
  pd_read f = Ok df ->
  normalized_cols (labels df) = Ok cols ->
  Dict.getitem "gtin" cols = None ->
  process_file'' f st w = (Ok st, w, [WarnNoColumn (name f)]).
Proof.
  intros Hr Hn Hc. unfold process_file. rewrite Hr.
  rewrite bind_silent with (a := cols) (w1 := w)
    by (unfold lift; now rewrite Hn).
  now rewrite Hc.
Qed.

Lemma process_file_no_gtins (f : UploadedFile)
  (df : list (label * list (option string))) (cols : Dict.t string)
  (c : string) (st : RunState) (w : World) :
  pd_read f = Ok df ->
  normalized_cols (labels df) = Ok cols ->
  Dict.getitem "gtin" cols = Some c ->
  extract_gtins df c = Ok [] ->
  process_file'' f st w = (Ok st, w, [WarnNoGtins (name f)]).
Proof.
  intros Hr Hn Hc He. unfold process_file. rewrite Hr.
  rewrite bind_silent with (a := cols) (w1 := w)
    by (unfold lift; now rewrite Hn).
  rewrite Hc. unfold bind, lift. now rewrite He.
Qed.

Lemma main_unfold (files : list UploadedFile) (ss : Session) (w : World) :
  files <> [] ->
  main'' files ss w =
  bind (file_loop'' files initial_state) (finalize (length files) ss) w.
Proof.
  intros H. destruct files; [now elim H|reflexivity].
Qed.

Lemma finalize_silent (n m : nat) (ss : Session) (st : RunState) (w : World) :
  silent (finalize n ss st w) = silent (finalize m ss st w).
Proof.
  unfold finalize. destruct (all_data st) as [|t ts]; [reflexivity|].
  unfold bind, lift. now destruct (Pd.concat (t :: ts)).
Qed.

Section OneSkip.
Variable f : UploadedFile.
Variable warning : event.
Hypothesis skipped :
  forall st w, process_file'' f st w = (Ok st, w, [warning]).

Lemma file_loop_skip (rest : list UploadedFile) (st : RunState) (w : World) :
  file_loop'' (f :: rest) st w =
  prepend_events [warning] (file_loop'' rest st w).
Proof.
  cbn [file_loop]. now rewrite (bind_ok _ _ _ _ _ _ (skipped st w)).
Qed.

Lemma file_loop_skip_silent (pre post : list UploadedFile) (st : RunState)
  (w : World) :
  silent (file_loop'' (pre ++ f :: post) st w) =
  silent (file_loop'' (pre ++ post) st w).
Proof.
  revert st w. induction pre as [|p pre IH]; intros st w.
  - simpl app. rewrite file_loop_skip. apply silent_prepend.
  - simpl app. cbn [file_loop]. apply bind_silent_cong; [reflexivity|].
    intros st' w'. apply IH.
Qed.

Lemma main_skip_silent (pre post : list UploadedFile) (ss : Session)
  (w : World) :
  silent (main'' (pre ++ f :: post) ss w) = silent (main'' (pre ++ post) ss w).
Proof.
  destruct (pre ++ post) as [|x xs] eqn:E.
  - apply app_eq_nil in E. destruct E as [-> ->]. simpl app.
    rewrite main_unfold by discriminate.
    rewrite (bind_ext_l (file_loop'' [f] initial_state)
               (fun w => prepend_events [warning]
                           (file_loop'' [] initial_state w))
               _ w (file_loop_skip [] initial_state w)).
    reflexivity.
  - rewrite <- E. rewrite !main_unfold.
    + apply bind_silent_cong.
      * apply file_loop_skip_silent.
      * intros st w'. apply finalize_silent.
    + rewrite E. discriminate.
    + destruct pre; discriminate.
Qed.

End OneSkip.
End Skips.

(** X17.  For a readable source whose column labels are all strings (as
    they always are for a CSV file): the column line 94 picks is one of the
    source's columns whose lower-cased name is ["gtin"], and one is picked
    whenever such a column exists; and when no column lower-cases to
    ["gtin"], or the picked column holds no identifier, the source gets its
    warning and is left out: no request is posted, the accumulated tables
    stay as they were, the file loop goes on with the next source, and the
    run ends with the session and the world it would have without that
    source. *)
Theorem unusable_source_is_skipped :
  forall (remote : nat -> list string -> outcome)
         (normalize_other : json -> result DataFrame)
         (f : UploadedFile) (df : list (label * list (option string)))
         (names : list string),
    pd_read f = Ok df ->
    labels df = map LStr names ->
    exists cols : Dict.t string,
      normalized_cols (labels df) = Ok cols
      /\ (forall c, Dict.getitem "gtin" cols = Some c ->
                    In c names /\ Str.lower c = "gtin")
      /\ ((exists c, In c names /\ Str.lower c = "gtin") ->
          exists c', Dict.getitem "gtin" cols = Some c')
      /\ (forall warning : event,
             ((forall c, In c names -> Str.lower c <> "gtin")
              /\ warning = WarnNoColumn (name f))
             \/ (exists c,
                    Dict.getitem "gtin" cols = Some c
                    /\ extract_gtins df c = Ok []
                    /\ warning = WarnNoGtins (name f)) ->
             (forall st w,
                 process_file remote normalize_other f st w =
                 (Ok st, w, [warning]))
             /\ (forall rest st w,
                    file_loop remote normalize_other (f :: rest) st w =
                    prepend_events [warning]
                      (file_loop remote normalize_other rest st w))
             /\ (forall pre post ss w,
                    silent (main remote normalize_other
                                 (pre ++ f :: post) ss w) =
                    silent (main remote normalize_other (pre ++ post) ss w))).
Proof.
  intros remote other f df names Hread Hlab.
  destruct (normalized_lookup "gtin" names []) as [Hsome Hnone].
  cbv zeta in Hsome, Hnone.
  pose proof (normalized_cols_str names) as Hn. rewrite <- Hlab in Hn.
  set (cols := fold_left (fun d col => Dict.setitem (Str.lower col) col d)
                         names []) in *.
  exists cols. split; [exact Hn|]. split; [|split].
  - intros c Hc. destruct (Hsome c Hc) as [H|H]; [exact H|discriminate].
  - intros [c [Hin Hl]].
    destruct (Dict.getitem "gtin" cols) as [c'|] eqn:E; [now exists c'|].
    exfalso. apply (proj2 (proj1 Hnone eq_refl) c Hin Hl).
  - intros warning Hskip.
    assert (Hp : forall st w,
               process_file remote other f st w = (Ok st, w, [warning])).
    { intros st w. destruct Hskip as [[Hno ->]|[c [Hc [He ->]]]].
      - apply process_file_no_column with (df := df) (cols := cols);
          [exact Hread|exact Hn|].
        apply Hnone. split; [reflexivity|exact Hno].
      - now apply process_file_no_gtins with (df := df) (cols := cols)
                                             (c := c). }
    split; [exact Hp|]. split.
    + intros rest st w. apply (file_loop_skip remote other f warning Hp).
    + intros pre post ss w. apply (main_skip_silent remote other f warning Hp).
Qed.

(** Scenario 3: the source with a column [SKU] is skipped and the run
    with the other source succeeds as without it; a source whose [gtin]
    column holds only missing values is skipped too. *)
Lemma unusable_source_is_skipped_witness :
  process_file Scenario.remote_echo Scenario.no_other_shape Scenario.file_sku
               initial_state Scenario.world0 =
    (Ok initial_state, Scenario.world0, [WarnNoColumn "skus.csv"])
  /\ silent (main Scenario.remote_echo Scenario.no_other_shape
                  ([] ++ Scenario.file_sku :: [Scenario.file_gtin])
                  Scenario.session0 Scenario.world0) =
     (Ok Scenario.session_first, {| calls := 1; slept := [] |})
  /\ process_file Scenario.remote_echo Scenario.no_other_shape
                  Scenario.file_blank initial_state Scenario.world0 =
     (Ok initial_state, Scenario.world0, [WarnNoGtins "blank.csv"]).
Proof.
  destruct (unusable_source_is_skipped Scenario.remote_echo
              Scenario.no_other_shape Scenario.file_sku
              [(LStr "SKU", [Some "4711"])] ["SKU"] eq_refl eq_refl)
    as [cols [Hcols [_ [_ Hskip]]]].
  destruct (unusable_source_is_skipped Scenario.remote_echo
              Scenario.no_other_shape Scenario.file_blank
              [(LStr "gtin", [None; None])] ["gtin"] eq_refl eq_refl)
    as [cols' [Hcols' [_ [_ Hblank]]]].
  destruct (Hskip (WarnNoColumn "skus.csv")) as [Hp [_ Hm]].
  - left. split; [|reflexivity].
    intros c [<-|[]]. vm_compute. discriminate.
  - split; [apply Hp|]. split; [rewrite Hm; vm_compute; reflexivity|].
    destruct (Hblank (WarnNoGtins "blank.csv")) as [Hb _].
    + right. exists "gtin". injection Hcols' as <-.
      repeat split; reflexivity.
    + apply Hb.
Defined.

(** C7 (skipped sources), at a workbook whose header row holds the number
    2024 beside [SKU]: the reader succeeds and no column is named [GTIN],
    so the claim wants a warning and the next source; but [col.lower()] of
    line 89, which is outside the [try] of lines 82-86, raises
    [AttributeError] on the label 2024: no warning is shown and the run
    stops, although the next source alone gives a successful run. *)
Theorem numeric_header_aborts_run :
  pd_read Extra.file_numeric_header =
    Ok [(LOther "2024", [Some "12"]); (LStr "SKU", [Some "4711"])]
  /\ (forall c, In (LStr c) [LOther "2024"; LStr "SKU"] ->
                Str.lower c <> "gtin")
  /\ normalized_cols [LOther "2024"; LStr "SKU"] = Raise AttributeError
  /\ process_file Scenario.remote_echo Scenario.no_other_shape
                  Extra.file_numeric_header initial_state Scenario.world0 =
     (Raise AttributeError, Scenario.world0, [])
  /\ main Scenario.remote_echo Scenario.no_other_shape
          [Extra.file_numeric_header; Scenario.file_gtin]
          Scenario.session0 Scenario.world0 =
     (Raise AttributeError, Scenario.world0, [])
  /\ main Scenario.remote_echo Scenario.no_other_shape [Scenario.file_gtin]
          Scenario.session0 Scenario.world0 =
     (Ok Scenario.session_first, {| calls := 1; slept := [] |},
      [UsageLogged "bryon" 1; SuccessAll]).
Proof.
  split; [reflexivity|]. split.
  - intros c [H|[H|[]]]; [discriminate H|].
    injection H as <-. vm_compute. discriminate.
  - split; [reflexivity|]. split; [reflexivity|].
    split; vm_compute; reflexivity.
Qed.

(** ** Identifier extraction *)





(** ** Payloads without a product list, and bodies that are not JSON *)

Section Payloads.
Variable remote : nat -> list string -> outcome.
Variable normalize_other : json -> result DataFrame.

Lemma post_with_retry_first (chunk : list string) (w : World) (r : Response) :
  remote (calls w) chunk = Responded r ->
  status_code r <> 503 ->
  post_with_retry remote chunk 5 w = (Ok (Some r), advance w 1 [], []).
Proof.
  intros Hr Hs. unfold post_with_retry.
  change (Py.range1 5) with [0; 1; 2; 3; 4]. cbn [retry_loop].
  rewrite bind_silent with (a := Return r) (w1 := advance w 1 []).
  - reflexivity.
  - now apply attempt_once_final.
Qed.


Lemma absorb_invalid_json (r : Response) (results_df : list DataFrame) :
  status_code r = 200 ->
  json_body r = None ->
  absorb_response normalize_other (Some r) results_df = Raise JSONDecodeError.
Proof.
  intros Hs Hb. unfold absorb_response, response_ok, response_json.
  now rewrite Hs, Hb.
Qed.

Lemma batch_loop_app (pre rest : list (list string))
  (acc acc' : list DataFrame) (w w' : World) (e : list event) :
  batch_loop remote normalize_other pre acc w = (Ok acc', w', e) ->
  batch_loop remote normalize_other (pre ++ rest) acc w =
  prepend_events e (batch_loop remote normalize_other rest acc' w').
Proof.
  revert acc w e. induction pre as [|chunk pre IH]; intros acc w e H.
  - injection H as <- <- <-. simpl. now rewrite prepend_nil.
  - simpl app. cbn [batch_loop] in *.
    apply bind_inv_ok in H. destruct H as (resp & w1 & e1 & e2 & Hp & H & ->).
    apply bind_inv_ok in H. destruct H as (a & w2 & e3 & e4 & Ha & H & ->).
    rewrite (bind_ok _ _ _ _ _ _ Hp), (bind_ok _ _ _ _ _ _ Ha).
    rewrite (IH _ _ _ H). now rewrite !prepend_prepend, <- app_assoc.
Qed.

Lemma file_loop_app (pre rest : list UploadedFile) (st st' : RunState)
  (w w' : World) (e : list event) :
  file_loop remote normalize_other pre st w = (Ok st', w', e) ->
  file_loop remote normalize_other (pre ++ rest) st w =
  prepend_events e (file_loop remote normalize_other rest st' w').
Proof.
  revert st w e. induction pre as [|f pre IH]; intros st w e H.
  - injection H as <- <- <-. simpl. now rewrite prepend_nil.
  - simpl app. cbn [file_loop] in *.
    apply bind_inv_ok in H. destruct H as (s1 & w1 & e1 & e2 & Hp & H & ->).
    rewrite (bind_ok _ _ _ _ _ _ Hp).
    rewrite (IH _ _ _ H). now rewrite prepend_prepend.
Qed.

(** An exception in the batch loop leaves [process_file]. *)
Lemma process_file_batch_raise (f : UploadedFile) (st : RunState)
  (df : list (label * list (option string))) (cols : Dict.t string)
  (col g : string)
  (gtins : list string) (chunks : list (list string)) (x : exn)
  (w w' : World) (e : list event) :
  pd_read f = Ok df ->
  normalized_cols (labels df) = Ok cols ->
  Dict.getitem "gtin" cols = Some col ->
  extract_gtins df col = Ok (g :: gtins) ->
  chunk_list (g :: gtins) 10 = Ok chunks ->
  batch_loop remote normalize_other chunks [] w = (Raise x, w', e) ->
  process_file remote normalize_other f st w = (Raise x, w', e).
Proof.
  intros Hr Hn Hc He Hk Hb. unfold process_file. rewrite Hr.
  rewrite bind_silent with (a := cols) (w1 := w)
    by (unfold lift; now rewrite Hn).
  rewrite Hc.
  rewrite bind_silent with (a := g :: gtins) (w1 := w)
    by (unfold lift; now rewrite He).
  rewrite bind_silent with (a := chunks) (w1 := w)
    by (unfold lift; now rewrite Hk).
  now apply bind_raise.
Qed.

End Payloads.




(** C10 (a 200 body that is not JSON).  [post_with_retry] hands back a
    response whose status is not 503 whatever its body is.  While the file
    loop is at some source and its batch loop at some batch: if the response
    [post_with_retry] returns for that batch, after however many attempts,
    has status 200 and a body that [response.json()] cannot parse, the batch
    loop raises the decoding error, and the error leaves [main]: the run
    ends there, with no later batch or source processed and no session
    update. *)
Theorem invalid_json_aborts_run :
  forall (remote : nat -> list string -> outcome)
         (normalize_other : json -> result DataFrame)
         (pre : list UploadedFile) (f : UploadedFile)
         (post : list UploadedFile) (ss : Session)
         (st : RunState) (w w1 : World) (e1 : list event)
         (df : list (label * list (option string))) (cols : Dict.t string)
         (col g : string) (gtins : list string)
         (chunks_pre : list (list string)) (chunk : list string)
         (chunks_post : list (list string))
         (acc : list DataFrame) (w2 : World) (e2 : list event)
         (r : Response) (w3 : World) (e3 : list event),
    file_loop remote normalize_other pre initial_state w = (Ok st, w1, e1) ->
    pd_read f = Ok df ->
    normalized_cols (labels df) = Ok cols ->
    Dict.getitem "gtin" cols = Some col ->
    extract_gtins df col = Ok (g :: gtins) ->
    chunk_list (g :: gtins) 10 = Ok (chunks_pre ++ chunk :: chunks_post) ->
    batch_loop remote normalize_other chunks_pre [] w1 = (Ok acc, w2, e2) ->
    post_with_retry remote chunk 5 w2 = (Ok (Some r), w3, e3) ->
    status_code r = 200 ->
    json_body r = None ->
    (forall (w0 : World) (r0 : Response),
        remote (calls w0) chunk = Responded r0 ->
        status_code r0 <> 503 ->
        post_with_retry remote chunk 5 w0 =
        (Ok (Some r0), advance w0 1 [], []))
    /\ batch_loop remote normalize_other (chunk :: chunks_post) acc w2 =
       (Raise JSONDecodeError, w3, e3)
    /\ main remote normalize_other (pre ++ f :: post) ss w =
       (Raise JSONDecodeError, w3, e1 ++ e2 ++ e3).
Proof.
  intros remote other pre f post ss st w w1 e1 df cols col g gtins
         chunks_pre chunk chunks_post acc w2 e2 r w3 e3
         Hpre Hread Hnorm Hcol Hext Hchunks Hbpre Hp Hs Hb.
  assert (Hbatch : batch_loop remote other (chunk :: chunks_post) acc w2 =
                   (Raise JSONDecodeError, w3, e3)).
  { cbn [batch_loop]. rewrite (bind_ok _ _ _ _ _ _ Hp).
    rewrite bind_raise with (e := JSONDecodeError) (w1 := w3) (e1 := []).
    - simpl. now rewrite app_nil_r.
    - unfold lift. now rewrite (absorb_invalid_json other r acc Hs Hb). }
  split; [|split; [exact Hbatch|]].
  { intros w0 r0 Hr0 Hs0. now apply post_with_retry_first. }
  apply main_raise.
  rewrite (file_loop_app remote other pre (f :: post) _ _ _ _ _ Hpre).
  cbn [file_loop].
  rewrite bind_raise with (e := JSONDecodeError) (w1 := w3) (e1 := e2 ++ e3).
  - reflexivity.
  - apply process_file_batch_raise
      with (df := df) (cols := cols) (col := col) (g := g) (gtins := gtins)
           (chunks := chunks_pre ++ chunk :: chunks_post); try assumption.
    rewrite (batch_loop_app remote other chunks_pre _ _ _ _ _ _ Hbpre).
    now rewrite Hbatch.
Qed.

(** A skipped source comes first; the only batch of the next source is
    answered with a 503 and then, at the second attempt, with status 200 and
    a body that is not JSON. *)
Lemma invalid_json_aborts_run_witness :
  (forall (w0 : World) (r0 : Response),
      Extra.remote_503_then_garbled (calls w0)
        ["00012345678905"; "00098765432109"] = Responded r0 ->
      status_code r0 <> 503 ->
      post_with_retry Extra.remote_503_then_garbled
                      ["00012345678905"; "00098765432109"] 5 w0 =
      (Ok (Some r0), advance w0 1 [], []))
  /\ batch_loop Extra.remote_503_then_garbled Scenario.no_other_shape
                (["00012345678905"; "00098765432109"] :: []) []
                Scenario.world0 =
     (Raise JSONDecodeError, {| calls := 2; slept := [1] |}, [])
  /\ main Extra.remote_503_then_garbled Scenario.no_other_shape
          ([Scenario.file_sku] ++ Scenario.file_gtin :: [Scenario.file_north])
          Scenario.session0 Scenario.world0 =
     (Raise JSONDecodeError, {| calls := 2; slept := [1] |},
      [WarnNoColumn "skus.csv"] ++ [] ++ []).
Proof.
  apply (invalid_json_aborts_run Extra.remote_503_then_garbled
           Scenario.no_other_shape [Scenario.file_sku] Scenario.file_gtin
           [Scenario.file_north] Scenario.session0 initial_state
           Scenario.world0 Scenario.world0 [WarnNoColumn "skus.csv"]
           [(LStr "GTIN",
             [Some "00012345678905"; None; Some "00098765432109"])]
           [("gtin", "GTIN")]
           "GTIN" "00012345678905" ["00098765432109"]
           [] ["00012345678905"; "00098765432109"] []
           [] Scenario.world0 []
           {| status_code := 200; json_body := None |}
           {| calls := 2; slept := [1] |} []).
  - vm_compute. reflexivity.
  - reflexivity.
  - reflexivity.
  - reflexivity.
  - reflexivity.
  - reflexivity.
  - reflexivity.
  - vm_compute. reflexivity.
  - reflexivity.
  - reflexivity.
Defined.


(** * Further properties of the code *)

(** ** The chunker, beyond the partition *)

(** X1.  For a positive chunk size every batch [chunk_list] yields is
    non-empty and has at most [n] elements: no empty batch is ever sent. *)
Theorem chunk_list_batches_nonempty_bounded :
  forall (A : Type) (lst : list A) (n : Z) (batches : list (list A)),
    0 < n ->
    chunk_list lst n = Ok batches ->
    Forall (fun b => b <> [] /\ Z.of_nat (length b) <= n) batches.
Proof.
  intros A lst n batches Hn H.
  rewrite chunk_list_windows in H by exact Hn. injection H as <-.
  pose proof (range_len_pos _ _ Hn (Nat2Z.is_nonneg (length lst))) as Hc.
  pose proof (ceil_div_bounds _ _ Hn (Nat2Z.is_nonneg (length lst))) as Hb.
  apply Forall_forall. intros b Hin.
  apply in_map_iff in Hin. destruct Hin as [k [<- Hk]].
  apply in_seq in Hk. unfold window.
  assert (Hlen : length (firstn (Z.to_nat n)
                                (skipn (k * Z.to_nat n) lst)) <> O).
  { rewrite length_firstn, length_skipn. nia. }
  split.
  - intros E. rewrite E in Hlen. now apply Hlen.
  - rewrite length_firstn. lia.
Qed.

Lemma chunk_list_batches_nonempty_bounded_witness :
  Forall (fun b : list Z => b <> [] /\ Z.of_nat (length b) <= 3)
         [[1; 2; 3]; [4; 5; 6]; [7]].
Proof.
  apply (chunk_list_batches_nonempty_bounded Z [1; 2; 3; 4; 5; 6; 7] 3).
  - lia.
  - reflexivity.
Defined.

(** X2.  A chunk size that is not positive: size 0 makes [range] raise
    [ValueError]; a negative size gives an empty [range], so the generator
    yields no batch at all and every identifier is left out. *)
Theorem chunk_list_degenerate_size :
  forall (A : Type) (lst : list A) (n : Z),
    n <= 0 ->
    chunk_list lst n = if n =? 0 then Raise ValueError else Ok [].
Proof.
  intros A lst n Hn. unfold chunk_list, Py.range3, Py.range_len.
  destruct (Z.eqb_spec n 0); [reflexivity|].
  destruct (Z.ltb_spec 0 n); [lia|].
  destruct (Z.ltb_spec (Z.of_nat (length lst)) 0); [lia|]. reflexivity.
Qed.

Lemma chunk_list_degenerate_size_witness :
  chunk_list [1; 2; 3] (-2) = Ok [] /\ chunk_list [1; 2; 3] 0 = Raise ValueError.
Proof.
  split.
  - apply (chunk_list_degenerate_size Z [1; 2; 3] (-2)). lia.
  - apply (chunk_list_degenerate_size Z [1; 2; 3] 0). lia.
Defined.

(** ** The retrying request client, on any service *)

Lemma total_app (a b : list Z) : total (a ++ b) = total a + total b.
Proof.
  unfold total. induction a as [|x a IH]; simpl; [reflexivity|].
  rewrite IH. lia.
Qed.

Lemma total_pow2 (n : nat) :
  total (map (Z.pow 2) (map Z.of_nat (seq 0 n))) = 2 ^ Z.of_nat n - 1.
Proof.
  induction n as [|n IH]; [reflexivity|].
  rewrite seq_S, !map_app, total_app, IH. cbn [map].
  unfold total. cbn [fold_right].
  rewrite Nat.add_0_l, Nat2Z.inj_succ, Z.pow_succ_r by lia. lia.
Qed.

Lemma total_pow2_nonneg (l : list Z) : 0 <= total (map (Z.pow 2) l).
Proof.
  unfold total. induction l as [|a l IH]; simpl; [lia|].
  pose proof (Z.pow_nonneg 2 a ltac:(lia)). lia.
Qed.

Section ClientBudget.
Variable remote : nat -> list string -> outcome.
Variable data : list string.

(** One pass through the loop body: one request, then a sleep and the
    next attempt, or the response, or the exception. *)
Lemma attempt_once_cases (attempt : Z) (w : World) :
  (transient (remote (calls w) data) = true
   /\ attempt_once remote data attempt w =
      (Ok Continue, advance w 1 [2 ^ attempt], []))
  \/ (exists r, remote (calls w) data = Responded r
                /\ status_code r <> 503
                /\ attempt_once remote data attempt w =
                   (Ok (Return r), advance w 1 [], []))
  \/ (exists e, remote (calls w) data = Crashed e
                /\ attempt_once remote data attempt w =
                   (Raise e, advance w 1 [], [])).
Proof.
  destruct (remote (calls w) data) as [r| |e] eqn:E.
  - destruct (Z.eqb_spec (status_code r) 503) as [Hs|Hs].
    + left. split; [simpl; now apply Z.eqb_eq|].
      apply attempt_once_transient. rewrite E. simpl. now apply Z.eqb_eq.
    + right. left. exists r. split; [reflexivity|]. split; [exact Hs|].
      now apply attempt_once_final.
  - left. split; [reflexivity|].
    apply attempt_once_transient. now rewrite E.
  - right. right. exists e. split; [reflexivity|].
    unfold attempt_once, requests_post, advance. rewrite E.
    now rewrite Nat.add_1_r, app_nil_r.
Qed.

Lemma retry_loop_budget (attempts : list Z) (w w' : World)
  (r : result (option Response)) (e : list event) :
  retry_loop remote data attempts w = (r, w', e) ->
  e = []
  /\ (calls w <= calls w' <= calls w + length attempts)%nat
  /\ (exists delays,
         slept w' = slept w ++ delays
         /\ (length delays <= calls w' - calls w)%nat
         /\ total delays <= total (map (Z.pow 2) attempts))
  /\ (forall resp, r = Ok (Some resp) ->
                   status_code resp <> 503
                   /\ (calls w < calls w')%nat
                   /\ remote (pred (calls w')) data = Responded resp).
Proof.
  revert w. induction attempts as [|a attempts IH]; intros w H.
  - injection H as <- <- <-. split; [reflexivity|]. split; [simpl; lia|].
    split; [|discriminate].
    exists []. rewrite app_nil_r. simpl. repeat split; unfold total; simpl; lia.
  - cbn [retry_loop] in H.
    pose proof (total_pow2_nonneg attempts) as Hnn.
    pose proof (Z.pow_nonneg 2 a ltac:(lia)) as Hpa.
    destruct (attempt_once_cases a w)
      as [[_ Ha]|[[r0 [Hr [Hs Ha]]]|[x [Hr Ha]]]].
    + rewrite bind_silent with (a := Continue) (w1 := advance w 1 [2 ^ a])
        in H by exact Ha.
      destruct (IH _ H) as [He [Hc [[delays [Hsl [Hl Ht]]] Hresp]]].
      simpl in Hc, Hsl, Hl. split; [exact He|]. split; [simpl; lia|]. split.
      * exists (2 ^ a :: delays). rewrite Hsl, <- app_assoc.
        split; [reflexivity|]. split; [simpl; lia|].
        unfold total in *. simpl. lia.
      * intros resp Hq. destruct (Hresp resp Hq) as [H1 [H2 H3]].
        simpl in H2. repeat split; [exact H1|lia|exact H3].
    + rewrite bind_silent with (a := Return r0) (w1 := advance w 1 [])
        in H by exact Ha.
      injection H as <- <- <-. split; [reflexivity|].
      split; [simpl; lia|]. split.
      * exists []. simpl. split; [reflexivity|]. split; [lia|].
        unfold total in *. simpl. lia.
      * intros resp [= <-]. simpl. split; [exact Hs|]. split; [lia|].
        now rewrite Nat.add_1_r.
    + rewrite bind_raise with (e := x) (w1 := advance w 1 []) (e1 := [])
        in H by exact Ha.
      injection H as <- <- <-. split; [reflexivity|].
      split; [simpl; lia|]. split; [|discriminate].
      exists []. simpl. split; [reflexivity|]. split; [lia|].
      unfold total in *. simpl. lia.
Qed.

End ClientBudget.

(** X3.  Whatever the service does and whatever [max_retries] is,
    [post_with_retry] posts at most [max_retries] requests (none when it is
    not positive), sleeps only after a request, sleeps less than
    [2 ^ max_retries] in total (at most 31 with the default 5) and shows no
    message. *)
Theorem post_with_retry_budget :
  forall (remote : nat -> list string -> outcome) (data : list string)
         (max_retries : Z) (w w' : World) (r : result (option Response))
         (e : list event),
    post_with_retry remote data max_retries w = (r, w', e) ->
    e = []
    /\ (calls w <= calls w' <= calls w + Z.to_nat max_retries)%nat
    /\ exists delays,
         slept w' = slept w ++ delays
         /\ (length delays <= calls w' - calls w)%nat
         /\ total delays <= 2 ^ Z.max 0 max_retries - 1.
Proof.
  intros remote data m w w' r e H. unfold post_with_retry in H.
  destruct (retry_loop_budget remote data _ _ _ _ _ H)
    as [He [Hc [[delays [Hs [Hl Ht]]] _]]].
  unfold Py.range1 in Hc, Ht. rewrite length_map, length_seq in Hc.
  rewrite total_pow2 in Ht.
  split; [exact He|]. split; [exact Hc|].
  exists delays. split; [exact Hs|]. split; [exact Hl|].
  replace (Z.max 0 m) with (Z.of_nat (Z.to_nat m)) by lia. exact Ht.
Qed.

Lemma post_with_retry_budget_witness :
  (0 <= 4 <= 0 + Z.to_nat 5)%nat
  /\ exists delays,
       [1; 2; 4] = [] ++ delays
       /\ (length delays <= 4 - 0)%nat
       /\ total delays <= 2 ^ Z.max 0 5 - 1.
Proof.
  apply (post_with_retry_budget Scenario.remote_503x3_then_200
           ["00012345678905"] 5 Scenario.world0
           {| calls := 4; slept := [1; 2; 4] |}
           (Ok (Some (Scenario.response_200
                        (Scenario.one_product "00012345678905")))) []).
  reflexivity.
Defined.

(** X4.  A response [post_with_retry] returns never has status 503: it is
    the answer to the last request posted, and at least one request was
    posted. *)
Theorem post_with_retry_never_returns_503 :
  forall (remote : nat -> list string -> outcome) (data : list string)
         (max_retries : Z) (w w' : World) (resp : Response) (e : list event),
    post_with_retry remote data max_retries w = (Ok (Some resp), w', e) ->
    status_code resp <> 503
    /\ (calls w < calls w')%nat
    /\ remote (pred (calls w')) data = Responded resp.
Proof.
  intros remote data m w w' resp e H. unfold post_with_retry in H.
  destruct (retry_loop_budget remote data _ _ _ _ _ H) as [_ [_ [_ Hr]]].
  now apply Hr.
Qed.

Lemma post_with_retry_never_returns_503_witness :
  status_code (Scenario.response_200 (Scenario.one_product "00012345678905"))
  <> 503
  /\ (0 < 4)%nat
  /\ Scenario.remote_503x3_then_200 (pred 4) ["00012345678905"] =
     Responded (Scenario.response_200 (Scenario.one_product "00012345678905")).
Proof.
  apply (post_with_retry_never_returns_503 Scenario.remote_503x3_then_200
           ["00012345678905"] 5 Scenario.world0
           {| calls := 4; slept := [1; 2; 4] |}
           (Scenario.response_200 (Scenario.one_product "00012345678905")) []).
  reflexivity.
Defined.

(** X5.  An exception of [requests.post] that is no [RequestException] is
    not caught: after [k] transient failures and their sleeps, it leaves
    [post_with_retry] at once, with no sleep and no further attempt. *)
Theorem post_with_retry_other_exception_escapes :
  forall (remote : nat -> list string -> outcome) (data : list string)
         (max_retries : Z) (k : nat) (x : exn) (w : World),
    Z.of_nat k < max_retries ->
    (forall j, (j < k)%nat ->
               transient (remote (calls w + j)%nat data) = true) ->
    remote (calls w + k)%nat data = Crashed x ->
    post_with_retry remote data max_retries w =
    (Raise x,
     advance w (k + 1) (map (fun j => 2 ^ Z.of_nat j) (seq 0 k)), []).
Proof.
  intros remote data m k x w Hk Htr Hx.
  unfold post_with_retry. rewrite (range1_split m k Hk).
  rewrite retry_loop_transient_prefix
    by (rewrite length_map, length_seq; assumption).
  rewrite length_map, length_seq, map_map. cbn [retry_loop].
  set (w1 := advance w k (map (fun j => 2 ^ Z.of_nat j) (seq 0 k))).
  destruct (attempt_once_cases remote data (Z.of_nat k) w1)
    as [[Ht _]|[[r0 [Hr _]]|[x' [Hr Ha]]]];
    unfold w1 in *; simpl calls in *.
  - rewrite Hx in Ht. discriminate.
  - rewrite Hx in Hr. discriminate.
  - rewrite Hx in Hr. injection Hr as <-.
    rewrite bind_raise with (e := x)
      (w1 := advance (advance w k (map (fun j => 2 ^ Z.of_nat j) (seq 0 k)))
                     1 []) (e1 := []) by exact Ha.
    unfold advance. simpl. rewrite app_nil_r. do 3 f_equal. lia.
Qed.

Lemma post_with_retry_other_exception_escapes_witness :
  post_with_retry Extra.remote_crash ["00012345678905"] 5 Scenario.world0 =
  (Raise (OtherError "interrupt"), {| calls := 2; slept := [1] |}, []).
Proof.
  apply (post_with_retry_other_exception_escapes Extra.remote_crash
           ["00012345678905"] 5 1 (OtherError "interrupt") Scenario.world0).
  - lia.
  - intros j Hj. destruct j; [reflexivity|lia].
  - reflexivity.
Defined.

(** ** The batch loop, on any service *)

Section BatchFacts.
Variable remote : nat -> list string -> outcome.
Variable normalize_other : json -> result DataFrame.

(** One response adds at most one table, at the end. *)
Lemma absorb_response_appends (response : option Response)
  (results_df results_df' : list DataFrame) :
  absorb_response normalize_other response results_df = Ok results_df' ->
  results_df' = results_df
  \/ exists t, results_df' = results_df ++ [t] /\ schema_ok t.
Proof.
  unfold absorb_response. intros H.
  destruct response as [r|]; [|left; now injection H as <-].
  destruct (response_ok r && (status_code r =? 200));
    [|left; now injection H as <-].
  destruct (response_json r) as [data|]; [|discriminate].
  destruct (py_in "products" data) as [[|]|]; try discriminate;
    [|left; now injection H as <-].
  destruct (py_getitem data "products") as [products|]; [|discriminate].
  destruct (normalize_products normalize_other products) as [t|] eqn:Et;
    [|discriminate].
  injection H as <-. right. exists t. split; [reflexivity|].
  now apply normalize_products_schema with (1 := Et).
Qed.

Lemma absorb_not_200 (r : Response) (results_df : list DataFrame) :
  status_code r <> 200 ->
  absorb_response normalize_other (Some r) results_df = Ok results_df.
Proof.
  intros Hs. unfold absorb_response.
  destruct (Z.eqb_spec (status_code r) 200); [contradiction|].
  now rewrite andb_false_r.
Qed.


Lemma absorb_no_match (r : Response) (members : list (string * json))
  (results_df : list DataFrame) :
  status_code r = 200 ->
  json_body r = Some (JObj members) ->
  Dict.getitem "products" members = Some (JArr []) ->
  absorb_response normalize_other (Some r) results_df =
  Ok (results_df ++ [empty_table]).
Proof.
  intros Hs Hb Hp. unfold absorb_response, response_ok, response_json.
  rewrite Hs, Hb. cbn [Z.leb Z.ltb Z.eqb Z.compare Pos.compare
                        Pos.compare_cont Pos.eqb andb negb].
  cbn [py_in py_getitem]. unfold Dict.mem. rewrite Hp. reflexivity.
Qed.

Lemma batch_loop_all_transient (chunks : list (list string))
  (results_df : list DataFrame) (w : World) :
  (forall i d, transient (remote i d) = true) ->
  batch_loop remote normalize_other chunks results_df w =
  (Ok results_df,
   advance w (5 * length chunks)
           (concat (repeat exhausted_delays (length chunks))), []).
Proof.
  intros Ht. revert w. induction chunks as [|chunk chunks IH]; intros w.
  - cbn [batch_loop]. unfold ret. now rewrite advance_0.
  - rewrite batch_loop_step
      with (response := None) (results_df' := results_df)
           (w1 := advance w 5 exhausted_delays).
    + rewrite IH. unfold advance. simpl. rewrite <- app_assoc.
      do 3 f_equal. lia.
    + apply post_with_retry_exhausted. intros j _. apply Ht.
    + reflexivity.
Qed.

Lemma batch_loop_all_no_match (r : Response) (members : list (string * json))
  (chunks : list (list string)) (results_df : list DataFrame) (w : World) :
  (forall i d, remote i d = Responded r) ->
  status_code r = 200 ->
  json_body r = Some (JObj members) ->
  Dict.getitem "products" members = Some (JArr []) ->
  batch_loop remote normalize_other chunks results_df w =
  (Ok (results_df ++ repeat empty_table (length chunks)),
   advance w (length chunks) [], []).
Proof.
  intros Hr Hs Hb Hp. revert results_df w.
  induction chunks as [|chunk chunks IH]; intros acc w.
  - cbn [batch_loop]. unfold ret. simpl. now rewrite advance_0, app_nil_r.
  - rewrite batch_loop_step
      with (response := Some r) (results_df' := acc ++ [empty_table])
           (w1 := advance w 1 []).
    + rewrite IH. unfold advance. simpl. rewrite <- !app_assoc. simpl.
      do 3 f_equal. lia.
    + apply post_with_retry_first; [apply Hr|]. rewrite Hs. discriminate.
    + now apply absorb_no_match with (members := members).
Qed.

Lemma batch_loop_grows (chunks : list (list string))
  (results_df : list DataFrame) (w w' : World)
  (r : result (list DataFrame)) (e : list event) :
  batch_loop remote normalize_other chunks results_df w = (r, w', e) ->
  e = []
  /\ (calls w <= calls w' <= calls w + 5 * length chunks)%nat
  /\ (forall results_df', r = Ok results_df' ->
        exists added,
          results_df' = results_df ++ added
          /\ (length added <= length chunks)%nat
          /\ Forall schema_ok added).
Proof.
  revert results_df w. induction chunks as [|chunk chunks IH]; intros acc w H.
  - injection H as <- <- <-. split; [reflexivity|]. split; [simpl; lia|].
    intros acc' [= <-]. exists []. rewrite app_nil_r.
    split; [reflexivity|]. split; [simpl; lia|constructor].
  - cbn [batch_loop] in H.
    destruct (post_with_retry remote chunk 5 w) as [[r1 w1] e1] eqn:Ep.
    destruct (retry_loop_budget remote chunk (Py.range1 5) w w1 r1 e1 Ep)
      as [-> [Hc _]].
    change (length (Py.range1 5)) with 5%nat in Hc.
    destruct r1 as [resp|x].
    2:{ rewrite bind_raise with (e := x) (w1 := w1) (e1 := []) in H
          by exact Ep.
        injection H as <- <- <-. split; [reflexivity|].
        split; [simpl; lia|discriminate]. }
    rewrite bind_silent with (a := resp) (w1 := w1) in H by exact Ep.
    destruct (absorb_response normalize_other resp acc) as [acc1|x] eqn:Ea.
    2:{ rewrite bind_raise with (e := x) (w1 := w1) (e1 := []) in H
          by reflexivity.
        injection H as <- <- <-. split; [reflexivity|].
        split; [simpl; lia|discriminate]. }
    rewrite bind_silent with (a := acc1) (w1 := w1) in H by reflexivity.
    destruct (IH _ _ H) as [He [Hc' Hacc]].
    split; [exact He|]. split; [simpl; lia|].
    intros acc' Hq. destruct (Hacc acc' Hq) as [added [-> [Hl Hs]]].
    destruct (absorb_response_appends _ _ _ Ea) as [->|[t [-> Ht]]].
    + exists added. split; [reflexivity|]. split; [simpl; lia|exact Hs].
    + exists (t :: added). rewrite <- app_assoc.
      split; [reflexivity|]. split; [simpl; lia|]. now constructor.
Qed.

End BatchFacts.

Lemma chunk_count {A} (lst : list A) :
  exists chunks,
    chunk_list lst 10 = Ok chunks
    /\ Z.of_nat (length chunks) = ceil_div (Z.of_nat (length lst)) 10.
Proof.
  eexists. split; [apply chunk_list_windows; lia|].
  rewrite length_map, length_seq. apply range_len_pos; lia.
Qed.

Lemma concat_empty_tables (n : nat) :
  Pd.concat (repeat empty_table (S n)) = Ok empty_table.
Proof.
  assert (Hall : forall m, Forall schema_ok (repeat empty_table m)).
  { induction m; simpl; constructor; [|assumption].
    split; [reflexivity|constructor]. }
  rewrite concat_schema; [|discriminate|apply Hall].
  unfold empty_table. do 2 f_equal.
  generalize (S n). clear. induction n; simpl; [reflexivity|assumption].
Qed.

Section SourceFacts.
Variable remote : nat -> list string -> outcome.
Variable normalize_other : json -> result DataFrame.

(** [process_file] from the result of its batch loop on. *)
Lemma process_file_batches (f : UploadedFile) (st : RunState)
  (df : list (label * list (option string))) (cols : Dict.t string)
  (col g : string)
  (gtins : list string) (chunks : list (list string))
  (res : list DataFrame) (w w' : World) :
  pd_read f = Ok df ->
  normalized_cols (labels df) = Ok cols ->
  Dict.getitem "gtin" cols = Some col ->
  extract_gtins df col = Ok (g :: gtins) ->
  chunk_list (g :: gtins) 10 = Ok chunks ->
  batch_loop remote normalize_other chunks [] w = (Ok res, w', []) ->
  process_file remote normalize_other f st w =
  match res with
  | [] => (Ok st, w', [WarnNoValid (name f)])
  | _ :: _ =>
      match Pd.concat res with
      | Ok t => (Ok (add_table st (name f, t)), w', [])
      | Raise x => (Raise x, w', [])
      end
  end.
Proof.
  intros Hr Hn Hc He Hk Hb. unfold process_file. rewrite Hr.
  rewrite bind_silent with (a := cols) (w1 := w)
    by (unfold lift; now rewrite Hn).
  rewrite Hc.
  rewrite bind_silent with (a := g :: gtins) (w1 := w)
    by (unfold lift; now rewrite He).
  rewrite bind_silent with (a := chunks) (w1 := w)
    by (unfold lift; now rewrite Hk).
  rewrite bind_silent with (a := res) (w1 := w') by exact Hb.
  destruct res as [|t res]; [reflexivity|].
  unfold bind, lift. now destruct (Pd.concat (t :: res)).
Qed.

End SourceFacts.

(** X6.  A response with a status other than 503 and 200 (a 404, a 500, a
    201) ends the batch after one request: it is handed back at once, its
    body is never read, nothing is added to [results_df], nothing is raised
    and the loop goes on with the next batch. *)
Theorem permanent_error_drops_batch :
  forall (remote : nat -> list string -> outcome)
         (normalize_other : json -> result DataFrame)
         (chunk : list string) (rest : list (list string))
         (results_df : list DataFrame) (w : World) (r : Response),
    remote (calls w) chunk = Responded r ->
    status_code r <> 503 ->
    status_code r <> 200 ->
    post_with_retry remote chunk 5 w = (Ok (Some r), advance w 1 [], [])
    /\ batch_loop remote normalize_other (chunk :: rest) results_df w =
       batch_loop remote normalize_other rest results_df (advance w 1 []).
Proof.
  intros remote other chunk rest acc w r Hr H503 H200.
  pose proof (post_with_retry_first remote chunk w r Hr H503) as Hp.
  split; [exact Hp|].
  apply batch_loop_step with (response := Some r); [exact Hp|].
  now apply absorb_not_200.
Qed.

Lemma permanent_error_drops_batch_witness :
  post_with_retry Extra.remote_404 ["01"] 5 Scenario.world0 =
    (Ok (Some {| status_code := 404; json_body := None |}),
     advance Scenario.world0 1 [], [])
  /\ batch_loop Extra.remote_404 Scenario.no_other_shape [["01"]; ["02"]] []
                Scenario.world0 =
     batch_loop Extra.remote_404 Scenario.no_other_shape [["02"]] []
                (advance Scenario.world0 1 []).
Proof.
  apply (permanent_error_drops_batch Extra.remote_404 Scenario.no_other_shape
           ["01"] [["02"]] [] Scenario.world0
           {| status_code := 404; json_body := None |}).
  - reflexivity.
  - simpl. lia.
  - simpl. lia.
Defined.



(** X8.  An empty product list still counts as a result: when the service
    answers every batch of a source with status 200 and ['products'] equal
    to [[]], the source gets no warning; a table with the five columns and
    no record joins [all_data] and [individual_results] under its name. *)
Theorem empty_product_list_counts_as_result :
  forall (remote : nat -> list string -> outcome)
         (normalize_other : json -> result DataFrame)
         (r : Response) (members : list (string * json))
         (f : UploadedFile) (df : list (label * list (option string)))
         (cols : Dict.t string)
         (col g : string) (gtins : list string) (st : RunState) (w : World),
    (forall i d, remote i d = Responded r) ->
    status_code r = 200 ->
    json_body r = Some (JObj members) ->
    Dict.getitem "products" members = Some (JArr []) ->
    pd_read f = Ok df ->
    normalized_cols (labels df) = Ok cols ->
    Dict.getitem "gtin" cols = Some col ->
    extract_gtins df col = Ok (g :: gtins) ->
    exists n,
      Z.of_nat n = ceil_div (Z.of_nat (length (g :: gtins))) 10
      /\ process_file remote normalize_other f st w =
         (Ok (add_table st (name f, empty_table)), advance w n [], []).
Proof.
  intros remote other r members f df cols col g gtins st w
         Hrem Hs Hb Hp Hread Hnorm Hcol Hext.
  destruct (chunk_count (g :: gtins)) as [chunks [Hk Hn]].
  exists (length chunks). split; [exact Hn|].
  rewrite (process_file_batches remote other f st df cols col g gtins chunks
             ([] ++ repeat empty_table (length chunks))
             w (advance w (length chunks) []) Hread Hnorm Hcol Hext Hk)
    by (now apply batch_loop_all_no_match with (r := r) (members := members)).
  pose proof (ceil_div_bounds (Z.of_nat (length (g :: gtins))) 10
                ltac:(lia) ltac:(lia)) as Hbd.
  assert (HL : 0 < Z.of_nat (length (g :: gtins))) by (simpl length; lia).
  set (L := Z.of_nat (length (g :: gtins))) in *.
  destruct (length chunks) as [|c] eqn:Ec.
  { change (Z.of_nat 0) with 0 in Hn. lia. }
  change ([] ++ repeat empty_table (S c)) with (repeat empty_table (S c)).
  rewrite concat_empty_tables. reflexivity.
Qed.

Lemma empty_product_list_counts_as_result_witness :
  exists n,
    Z.of_nat n = ceil_div (Z.of_nat (length ["00012345678905";
                                            "00098765432109"])) 10
    /\ process_file Extra.remote_no_match Scenario.no_other_shape
                    Scenario.file_gtin initial_state Scenario.world0 =
       (Ok (add_table initial_state (name Scenario.file_gtin, empty_table)),
        advance Scenario.world0 n [], []).
Proof.
  apply (empty_product_list_counts_as_result Extra.remote_no_match
           Scenario.no_other_shape Extra.response_no_match
           [("products", JArr [])] Scenario.file_gtin
           [(LStr "GTIN",
             [Some "00012345678905"; None; Some "00098765432109"])]
           [("gtin", "GTIN")]
           "GTIN" "00012345678905" ["00098765432109"]
           initial_state Scenario.world0);
    reflexivity.
Defined.

(** X9.  Whatever the service answers, the batch loop never removes or
    reorders what [results_df] already holds: it only appends, at most one
    table of the fixed schema per batch; and it posts at most five requests
    per batch. *)
Theorem batch_loop_only_appends :
  forall (remote : nat -> list string -> outcome)
         (normalize_other : json -> result DataFrame)
         (chunks : list (list string)) (results_df : list DataFrame)
         (w w' : World) (r : result (list DataFrame)) (e : list event),
    batch_loop remote normalize_other chunks results_df w = (r, w', e) ->
    (calls w <= calls w' <= calls w + 5 * length chunks)%nat
    /\ (forall results_df', r = Ok results_df' ->
          exists added,
            results_df' = results_df ++ added
            /\ (length added <= length chunks)%nat
            /\ Forall schema_ok added).
Proof.
  intros remote other chunks acc w w' r e H.
  now apply batch_loop_grows in H.
Qed.

Lemma batch_loop_only_appends_witness :
  (0 <= 4 <= 0 + 5 * 1)%nat
  /\ exists added,
       [Scenario.table_of ["00012345678905"]] = [] ++ added
       /\ (length added <= 1)%nat
       /\ Forall schema_ok added.
Proof.
  destruct (batch_loop_only_appends Scenario.remote_503x3_then_200
              Scenario.no_other_shape [["00012345678905"]] []
              Scenario.world0 {| calls := 4; slept := [1; 2; 4] |}
              (Ok [Scenario.table_of ["00012345678905"]]) [])
    as [Hc Ha].
  - vm_compute. reflexivity.
  - split; [exact Hc|]. apply Ha. reflexivity.
Defined.

(** X10.  When every request of a source fails transiently, each of its
    batches costs five requests and the sleeps 1, 2, 4, 8, 16; the source
    ends with the warning "No valid results" and adds no table: for [L]
    identifiers, five times the ceiling of [L / 10] requests in all. *)
Theorem source_with_all_batches_failing :
  forall (remote : nat -> list string -> outcome)
         (normalize_other : json -> result DataFrame)
         (f : UploadedFile) (df : list (label * list (option string)))
         (cols : Dict.t string)
         (col g : string) (gtins : list string) (st : RunState) (w : World),
    (forall i d, transient (remote i d) = true) ->
    pd_read f = Ok df ->
    normalized_cols (labels df) = Ok cols ->
    Dict.getitem "gtin" cols = Some col ->
    extract_gtins df col = Ok (g :: gtins) ->
    exists n,
      Z.of_nat n = ceil_div (Z.of_nat (length (g :: gtins))) 10
      /\ process_file remote normalize_other f st w =
         (Ok st,
          advance w (5 * n) (concat (repeat exhausted_delays n)),
          [WarnNoValid (name f)]).
Proof.
  intros remote other f df cols col g gtins st w Ht Hread Hnorm Hcol Hext.
  destruct (chunk_count (g :: gtins)) as [chunks [Hk Hn]].
  exists (length chunks). split; [exact Hn|].
  rewrite (process_file_batches remote other f st df cols col g gtins chunks
             []
             w (advance w (5 * length chunks)
                        (concat (repeat exhausted_delays (length chunks))))
             Hread Hnorm Hcol Hext Hk)
    by (now apply batch_loop_all_transient).
  reflexivity.
Qed.

Lemma source_with_all_batches_failing_witness :
  exists n,
    Z.of_nat n = ceil_div 12 10
    /\ process_file Scenario.remote_down Scenario.no_other_shape
                    Extra.file_twelve initial_state Scenario.world0 =
       (Ok initial_state,
        advance Scenario.world0 (5 * n) (concat (repeat exhausted_delays n)),
        [WarnNoValid "twelve.csv"]).
Proof.
  apply (source_with_all_batches_failing Scenario.remote_down
           Scenario.no_other_shape Extra.file_twelve
           [(LStr "gtin", map Some ["01"; "02"; "03"; "04"; "05"; "06";
                                    "07"; "08"; "09"; "10"; "11"; "12"])]
           [("gtin", "gtin")]
           "gtin" "01" ["02"; "03"; "04"; "05"; "06";
                        "07"; "08"; "09"; "10"; "11"; "12"]
           initial_state Scenario.world0).
  - intros i d. reflexivity.
  - reflexivity.
  - reflexivity.
  - reflexivity.
  - reflexivity.
Defined.

(** ** Sources and columns *)

(** X11.  A file the reader cannot parse only gets the warning "Could not
    read": no request is posted, the accumulated tables stay as they were,
    the file loop goes on with the next source, and the run ends with the
    session and the world it would have without that file. *)
Theorem unreadable_source_is_skipped :
  forall (remote : nat -> list string -> outcome)
         (normalize_other : json -> result DataFrame) (f : UploadedFile),
    parsed f = None ->
    (forall st w,
        process_file remote normalize_other f st w =
        (Ok st, w, [WarnUnreadable (name f)]))
    /\ (forall rest st w,
           file_loop remote normalize_other (f :: rest) st w =
           prepend_events [WarnUnreadable (name f)]
             (file_loop remote normalize_other rest st w))
    /\ (forall pre post ss w,
           silent (main remote normalize_other (pre ++ f :: post) ss w) =
           silent (main remote normalize_other (pre ++ post) ss w)).
Proof.
  intros remote other f Hp.
  assert (Hskip : forall st w,
             process_file remote other f st w =
             (Ok st, w, [WarnUnreadable (name f)])).
  { intros st w. unfold process_file, pd_read. now rewrite Hp. }
  split; [exact Hskip|]. split.
  - intros rest st w. apply (file_loop_skip remote other f _ Hskip).
  - intros pre post ss w. apply (main_skip_silent remote other f _ Hskip).
Qed.

Lemma unreadable_source_is_skipped_witness :
  process_file Scenario.remote_echo Scenario.no_other_shape Extra.file_broken
               initial_state Scenario.world0 =
    (Ok initial_state, Scenario.world0, [WarnUnreadable "broken.xlsx"])
  /\ silent (main Scenario.remote_echo Scenario.no_other_shape
                  ([Scenario.file_gtin] ++ Extra.file_broken :: [])
                  Scenario.session0 Scenario.world0) =
     (Ok Scenario.session_first, {| calls := 1; slept := [] |}).
Proof.
  destruct (unreadable_source_is_skipped Scenario.remote_echo
              Scenario.no_other_shape Extra.file_broken eq_refl)
    as [Hp [_ Hm]].
  split; [apply Hp|]. rewrite Hm. vm_compute. reflexivity.
Defined.

(** X12.  When several columns have a name that lower-cases to ["gtin"]
    (say [GTIN] and [gtin]), the dict of line 89 keeps the last of them,
    and the identifiers are read from that column only. *)
Theorem last_matching_column_wins :
  forall (pre post : list string) (c : string),
    Str.lower c = "gtin" ->
    (forall x, In x post -> Str.lower x <> "gtin") ->
    exists cols,
      normalized_cols (map LStr (pre ++ c :: post)) = Ok cols
      /\ Dict.getitem "gtin" cols = Some c.
Proof.
  intros pre post c Hc Hpost.
  eexists. split; [apply normalized_cols_str|].
  rewrite fold_left_app. cbn [fold_left].
  set (d := Dict.setitem (Str.lower c) c
              (fold_left (fun d col => Dict.setitem (Str.lower col) col d)
                         pre [])).
  assert (Hd : Dict.getitem "gtin" d = Some c).
  { unfold d. rewrite getitem_setitem, Hc. reflexivity. }
  destruct (normalized_lookup "gtin" post d) as [Hsome Hnone].
  cbv zeta in Hsome, Hnone.
  destruct (Dict.getitem "gtin"
              (fold_left (fun d col => Dict.setitem (Str.lower col) col d)
                         post d)) as [c'|] eqn:E.
  - destruct (Hsome c' eq_refl) as [[Hin Hl]|Hg].
    + elim (Hpost c' Hin Hl).
    + congruence.
  - destruct (proj1 Hnone eq_refl) as [Habs _]. congruence.
Qed.

Lemma last_matching_column_wins_witness :
  (exists cols,
      normalized_cols (map LStr (["GTIN"; "note"] ++ "gtin" :: [])) = Ok cols
      /\ Dict.getitem "gtin" cols = Some "gtin")
  /\ main Scenario.remote_echo Scenario.no_other_shape
          [Extra.file_two_columns] Scenario.session0 Scenario.world0 =
     (Ok {| user_name := "bryon";
            final_df := Some (Scenario.table_of ["00098765432109"]);
            ss_individual_results :=
              Some [("two.csv", Scenario.table_of ["00098765432109"])] |},
      {| calls := 1; slept := [] |}, [UsageLogged "bryon" 1; SuccessAll]).
Proof.
  split.
  - apply (last_matching_column_wins ["GTIN"; "note"] [] "gtin").
    + reflexivity.
    + intros x [].
  - vm_compute. reflexivity.
Defined.

(** ** The per-source view *)

Lemma getitem_app {V} (k : string) (d1 d2 : Dict.t V) :
  Dict.getitem k (d1 ++ d2) =
  match Dict.getitem k d1 with
  | Some v => Some v
  | None => Dict.getitem k d2
  end.
Proof.
  induction d1 as [|[k' v'] d1 IH]; simpl; [reflexivity|].
  destruct (String.eqb k k'); [reflexivity|exact IH].
Qed.

Lemma fold_setitem_lookup (l : list (string * DataFrame))
  (d : Dict.t DataFrame) (k : string) :
  Dict.getitem k
    (fold_left (fun d (e : string * DataFrame) =>
                  Dict.setitem (fst e) (snd e) d) l d) =
  match Dict.getitem k (rev l) with
  | Some t => Some t
  | None => Dict.getitem k d
  end.
Proof.
  revert d. induction l as [|[k0 t0] l IH]; intros d; simpl; [reflexivity|].
  rewrite IH, getitem_app, getitem_setitem. simpl.
  destruct (Dict.getitem k (rev l)); [reflexivity|].
  now destruct (String.eqb k k0).
Qed.

Lemma setitem_keys {V} (k : string) (v : V) (d : Dict.t V) :
  Dict.keys (Dict.setitem k v d) =
  if in_labels k (Dict.keys d) then Dict.keys d else Dict.keys d ++ [k].
Proof.
  induction d as [|[k' v'] d IH]; simpl; [reflexivity|].
  destruct (String.eqb_spec k k') as [->|Hne]; simpl; [reflexivity|].
  unfold Dict.keys in *. rewrite IH.
  now destruct (in_labels k (map fst d)).
Qed.

Lemma fold_setitem_keys (l : list (string * DataFrame))
  (d : Dict.t DataFrame) :
  NoDup (Dict.keys d) ->
  let d' := fold_left (fun d (e : string * DataFrame) =>
                         Dict.setitem (fst e) (snd e) d) l d in
  NoDup (Dict.keys d')
  /\ (length d' <= length d + length l)%nat
  /\ (forall k, In k (Dict.keys d') <-> In k (Dict.keys d) \/ In k (map fst l)).
Proof.
  revert d. induction l as [|[k0 t0] l IH]; intros d Hd; simpl.
  - split; [exact Hd|]. split; [lia|]. intros k. tauto.
  - assert (Hk : NoDup (Dict.keys (Dict.setitem k0 t0 d))
                 /\ (length (Dict.setitem k0 t0 d) <= S (length d))%nat
                 /\ (forall k, In k (Dict.keys (Dict.setitem k0 t0 d)) <->
                               In k (Dict.keys d) \/ k0 = k)).
    { pose proof (f_equal (@length _) (setitem_keys k0 t0 d)) as Hlen.
      unfold Dict.keys in Hlen at 1. rewrite length_map in Hlen.
      rewrite setitem_keys.
      destruct (in_labels k0 (Dict.keys d)) eqn:E.
      - unfold Dict.keys in Hlen. rewrite length_map in Hlen.
        split; [exact Hd|]. split; [lia|].
        intros k. split; [tauto|]. intros [H|<-]; [exact H|].
        now apply in_labels_In.
      - unfold Dict.keys in Hlen. rewrite length_app, length_map in Hlen.
        simpl in Hlen. split.
        + apply NoDup_app; [exact Hd|repeat constructor; intros []|].
          intros a Ha [<-|[]]. apply in_labels_In in Ha. congruence.
        + split; [lia|]. intros k. rewrite in_app_iff. simpl. tauto. }
    destruct Hk as [Hnd [Hlen Hin]].
    destruct (IH _ Hnd) as [H1 [H2 H3]].
    split; [exact H1|]. split; [lia|].
    intros k. rewrite H3, Hin. tauto.
Qed.

(** X13.  [individual_results] after the file loop: its keys are pairwise
    distinct and are exactly the names of the sources that yielded a table;
    under each name it holds the table of the last such source with that
    name; so it never has more entries than [all_data] has tables. *)
Theorem individual_results_last_upload_wins :
  forall (remote : nat -> list string -> outcome)
         (normalize_other : json -> result DataFrame)
         (files : list UploadedFile) (st : RunState) (w w' : World)
         (evs : list event),
    file_loop remote normalize_other files initial_state w = (Ok st, w', evs) ->
    exists l : list (string * DataFrame),
      collected remote normalize_other files w = (Ok l, w', evs)
      /\ all_data st = map snd l
      /\ NoDup (Dict.keys (individual_results st))
      /\ (forall k, In k (Dict.keys (individual_results st)) <->
                    In k (map fst l))
      /\ (forall k, Dict.getitem k (individual_results st) =
                    Dict.getitem k (rev l))
      /\ (length (individual_results st) <= length (all_data st))%nat.
Proof.
  intros remote other files st w w' evs H.
  destruct (file_loop_inv remote other _ _ _ _ _ H)
    as (l & Hl & Hst & Had & _ & _).
  exists l. split; [exact Hl|]. split; [exact Had|].
  rewrite Had, Hst, fold_add_table_individual_results. simpl.
  destruct (fold_setitem_keys l [] (NoDup_nil _)) as [H1 [H2 H3]].
  cbv zeta in H1, H2, H3.
  split; [exact H1|]. split; [intros k; rewrite H3; simpl; tauto|].
  split.
  - intros k. rewrite fold_setitem_lookup.
    now destruct (Dict.getitem k (rev l)).
  - rewrite length_map. simpl in H2. exact H2.
Qed.

Lemma individual_results_last_upload_wins_witness :
  exists l : list (string * DataFrame),
    collected Scenario.remote_echo Scenario.no_other_shape
              [Scenario.file_north; Scenario.file_south] Scenario.world0 =
      (Ok l, {| calls := 2; slept := [] |}, [])
    /\ [Scenario.table_of ["00012345678905"];
        Scenario.table_of ["00098765432109"]] = map snd l
    /\ NoDup (Dict.keys [("list.csv", Scenario.table_of ["00098765432109"])])
    /\ (forall k,
           In k (Dict.keys [("list.csv",
                             Scenario.table_of ["00098765432109"])]) <->
           In k (map fst l))
    /\ (forall k,
           Dict.getitem k [("list.csv", Scenario.table_of ["00098765432109"])]
           = Dict.getitem k (rev l))
    /\ (1 <= 2)%nat.
Proof.
  apply (individual_results_last_upload_wins Scenario.remote_echo
           Scenario.no_other_shape [Scenario.file_north; Scenario.file_south]
           {| all_data := [Scenario.table_of ["00012345678905"];
                           Scenario.table_of ["00098765432109"]];
              individual_results :=
                [("list.csv", Scenario.table_of ["00098765432109"])] |}
           Scenario.world0 {| calls := 2; slept := [] |} []).
  vm_compute. reflexivity.
Defined.

(** ** Messages and the session *)

Section Accounting.
Variable remote : nat -> list string -> outcome.
Variable normalize_other : json -> result DataFrame.

(** A source ends with a table and no message, or with no table and one
    warning. *)
Lemma source_table_events (f : UploadedFile) (w w' : World)
  (o : option DataFrame) (e : list event) :
  source_table remote normalize_other f w = (Ok o, w', e) ->
  (o = None /\ exists ev, e = [ev] /\ is_warning ev = true)
  \/ (e = [] /\ exists t, o = Some t).
Proof.
  unfold source_table.
  destruct (pd_read f) as [df|x].
  2:{ intros [= <- _ <-]. left. split; [reflexivity|]. eexists. now split. }
  intros H. apply bind_inv_ok in H.
  destruct H as (cols & w0 & e0 & e0' & Hl & H & ->).
  apply lift_inv in Hl. destruct Hl as [_ [-> ->]].
  destruct (Dict.getitem "gtin" cols).
  2:{ injection H as <- _ <-. left. split; [reflexivity|].
      eexists. now split. }
  apply bind_inv_ok in H.
  destruct H as (gtins & w1 & e1 & e2 & Hl & H & ->).
  apply lift_inv in Hl. destruct Hl as [_ [-> ->]].
  destruct gtins as [|g gtins].
  { injection H as <- _ <-. left. split; [reflexivity|]. eexists. now split. }
  apply bind_inv_ok in H. destruct H as (chunks & w2 & e3 & e4 & Hl & H & ->).
  apply lift_inv in Hl. destruct Hl as [_ [-> ->]].
  apply bind_inv_ok in H. destruct H as (res & w3 & e5 & e6 & Hb & H & ->).
  destruct (batch_loop_grows remote normalize_other _ _ _ _ _ _ Hb)
    as [-> _].
  destruct res as [|t res].
  { injection H as <- _ <-. left. split; [reflexivity|]. eexists. now split. }
  apply bind_inv_ok in H. destruct H as (fr & w4 & e7 & e8 & Hl & H & ->).
  apply lift_inv in Hl. destruct Hl as [_ [-> ->]].
  injection H as <- _ <-. right. split; [reflexivity|]. now exists fr.
Qed.

Lemma collected_events (files : list UploadedFile) (w w' : World)
  (l : list (string * DataFrame)) (e : list event) :
  collected remote normalize_other files w = (Ok l, w', e) ->
  Forall (fun ev => is_warning ev = true) e
  /\ (length e + length l = length files)%nat.
Proof.
  revert w w' l e. induction files as [|f files IH]; intros w w' l e H.
  - injection H as <- _ <-. split; [constructor|reflexivity].
  - cbn [collected] in H.
    apply bind_inv_ok in H. destruct H as (o & w1 & e1 & e2 & Ho & H & ->).
    apply bind_inv_ok in H. destruct H as (l' & w2 & e3 & e4 & Hl & H & ->).
    injection H as <- _ <-. rewrite app_nil_r.
    destruct (IH _ _ _ _ Hl) as [Hw Hn].
    destruct (source_table_events _ _ _ _ _ Ho)
      as [[-> [ev [-> Hev]]]|[-> [t ->]]]; simpl.
    + split; [now constructor|lia].
    + split; [exact Hw|lia].
Qed.

End Accounting.

(** X14.  Every source is accounted for: when the file loop ends without
    an exception, each uploaded file has either added one table to
    [all_data] or got exactly one warning, so the warnings and the tables
    together are as many as the files. *)
Theorem every_source_yields_a_table_or_a_warning :
  forall (remote : nat -> list string -> outcome)
         (normalize_other : json -> result DataFrame)
         (files : list UploadedFile) (st : RunState) (w w' : World)
         (evs : list event),
    file_loop remote normalize_other files initial_state w = (Ok st, w', evs) ->
    (length (filter is_warning evs) + length (all_data st) =
     length files)%nat.
Proof.
  intros remote other files st w w' evs H.
  destruct (file_loop_inv remote other _ _ _ _ _ H)
    as (l & Hl & _ & Had & _ & _).
  destruct (collected_events remote other _ _ _ _ _ Hl) as [Hw Hn].
  rewrite (forallb_filter_id is_warning evs).
  - now rewrite Had, length_map.
  - apply forallb_forall. rewrite Forall_forall in Hw. exact Hw.
Qed.

Lemma every_source_yields_a_table_or_a_warning_witness :
  (length (filter is_warning
                  [WarnNoColumn "skus.csv"; WarnUnreadable "broken.xlsx"])
   + 1 = 3)%nat.
Proof.
  apply (every_source_yields_a_table_or_a_warning Scenario.remote_echo
           Scenario.no_other_shape
           [Scenario.file_sku; Scenario.file_gtin; Extra.file_broken]
           {| all_data :=
                [Scenario.table_of ["00012345678905"; "00098765432109"]];
              individual_results :=
                [("first.csv",
                  Scenario.table_of ["00012345678905"; "00098765432109"])] |}
           Scenario.world0 {| calls := 1; slept := [] |}
           [WarnNoColumn "skus.csv"; WarnUnreadable "broken.xlsx"]).
  vm_compute. reflexivity.
Defined.

(** X15.  A run never clears the session: the user name is kept; results
    stored by an earlier run stay when the run finds no data, so the
    download section keeps offering them; the session changes only when the
    run succeeds, and then both views are replaced together and the success
    message is shown; the error "No data was processed." means the session
    is as before. *)
Theorem run_keeps_or_replaces_session :
  forall (remote : nat -> list string -> outcome)
         (normalize_other : json -> result DataFrame)
         (files : list UploadedFile) (ss ss' : Session) (w w' : World)
         (evs : list event),
    main remote normalize_other files ss w = (Ok ss', w', evs) ->
    user_name ss' = user_name ss
    /\ (download_offered ss = true -> download_offered ss' = true)
    /\ (ss' = ss \/ (download_offered ss' = true /\ In SuccessAll evs))
    /\ (In ErrorNoData evs -> ss' = ss).
Proof.
  intros remote other files ss ss' w w' evs H.
  destruct files as [|f files].
  { injection H as <- _ <-. repeat split; auto. }
  destruct (file_loop remote other (f :: files) initial_state w)
    as [[[st|x] w1] e1] eqn:El.
  2:{ rewrite (main_raise _ _ _ _ _ _ _ _ El) in H. discriminate. }
  assert (Hne : f :: files <> []) by discriminate.
  rewrite (main_outcome _ _ _ ss _ _ _ _ Hne El) in H.
  destruct (file_loop_inv remote other _ _ _ _ _ El) as (l & Hl & _).
  destruct (collected_events remote other _ _ _ _ _ Hl) as [Hw _].
  destruct (all_data st) as [|t ts].
  - injection H as <- _ <-. repeat split; auto.
  - injection H as <- _ <-. split; [reflexivity|]. split; [reflexivity|].
    split.
    + right. split; [reflexivity|].
      apply in_or_app. right. right. now left.
    + intros Hin. exfalso. apply in_app_or in Hin.
      destruct Hin as [Hin|[Hin|[Hin|[]]]]; try discriminate.
      rewrite Forall_forall in Hw. specialize (Hw _ Hin). discriminate.
Qed.

Lemma run_keeps_or_replaces_session_witness :
  user_name Scenario.session_first = user_name Scenario.session_first
  /\ (download_offered Scenario.session_first = true ->
      download_offered Scenario.session_first = true)
  /\ (Scenario.session_first = Scenario.session_first
      \/ (download_offered Scenario.session_first = true
          /\ In SuccessAll [WarnNoColumn "skus.csv"; ErrorNoData]))
  /\ (In ErrorNoData [WarnNoColumn "skus.csv"; ErrorNoData] ->
      Scenario.session_first = Scenario.session_first).
Proof.
  apply (run_keeps_or_replaces_session Scenario.remote_echo
           Scenario.no_other_shape [Scenario.file_sku]
           Scenario.session_first Scenario.session_first
           Scenario.world0 Scenario.world0
           [WarnNoColumn "skus.csv"; ErrorNoData]).
  reflexivity.
Defined.

(** ** The status text *)

Lemma firstn_seq_le (a k len : nat) :
  (k <= len)%nat -> firstn k (seq a len) = seq a k.
Proof.
  revert a len. induction k as [|k IH]; intros a len H; [reflexivity|].
  destruct len as [|len]; [lia|]. simpl. f_equal. apply IH. lia.
Qed.

(** X16.  The count the status text of line 117 shows after the batch of
    index [i], [(i + 1) * 10], is the number of identifiers processed so far
    for every batch but the last; after the last batch all [L] identifiers
    are processed and the text shows ten times the number of batches, which
    is [L] only when 10 divides [L] and overshoots by less than 10
    otherwise. *)
Theorem status_text_count :
  forall (gtins : list string) (chunks : list (list string)) (i : nat),
    chunk_list gtins 10 = Ok chunks ->
    (i < length chunks)%nat ->
    let L := Z.of_nat (length gtins) in
    let processed := Z.of_nat (length (concat (firstn (S i) chunks))) in
    ((S i < length chunks)%nat -> status_count i = processed)
    /\ (S i = length chunks ->
        processed = L
        /\ L <= status_count i < L + 10
        /\ (status_count i = L <-> L mod 10 = 0)).
Proof.
  intros gtins chunks i Hk Hi L processed.
  rewrite chunk_list_windows in Hk by lia. injection Hk as <-.
  change (Z.to_nat 10) with 10%nat in *.
  pose proof (range_len_pos (Z.of_nat (length gtins)) 10 ltac:(lia)
                ltac:(lia)) as Hc.
  pose proof (ceil_div_bounds (Z.of_nat (length gtins)) 10 ltac:(lia)
                ltac:(lia)) as Hb.
  fold L in Hc, Hb.
  set (cnt := Py.range_len 0 L 10) in *.
  rewrite length_map, length_seq in *.
  assert (Hp : processed = Z.of_nat (Nat.min (S i * 10) (length gtins))).
  { unfold processed. rewrite firstn_map, firstn_seq_le by lia.
    now rewrite concat_windows, length_firstn. }
  pose proof (Z.div_mod L 10 ltac:(lia)) as Hdm.
  pose proof (Z.mod_pos_bound L 10 ltac:(lia)) as Hmb.
  unfold status_count. subst L. split.
  - intros Hlt. rewrite Hp. lia.
  - intros Heq. rewrite Hp. repeat split; try lia.
Qed.

Lemma status_text_count_witness :
  let gtins := ["01"; "02"; "03"; "04"; "05"; "06";
                "07"; "08"; "09"; "10"; "11"; "12"] in
  let chunks := [["01"; "02"; "03"; "04"; "05"; "06"; "07"; "08"; "09"; "10"];
                 ["11"; "12"]] in
  (2%nat = length chunks ->
   Z.of_nat (length (concat (firstn 2 chunks))) = Z.of_nat (length gtins)
   /\ Z.of_nat (length gtins) <= status_count 1 < Z.of_nat (length gtins) + 10
   /\ (status_count 1 = Z.of_nat (length gtins) <->
       Z.of_nat (length gtins) mod 10 = 0))
  /\ status_count 1 = 20.
Proof.
  intros gtins chunks. split; [|reflexivity].
  apply (status_text_count gtins chunks 1).
  - reflexivity.
  - simpl. lia.
Defined.
